(** * EasyMCP: capability registration and request dispatch

    A shallow embedding of [src/lib/EasyMCP.ts] and
    [src/lib/decorators/Tool.ts].

    JavaScript objects that the code mutates in place ([this], the managers,
    the SDK server) are threaded explicitly: every method of [BaseMCP] is a
    computation in a small state-and-exception monad over a [Machine] that
    holds the instance, the process (stderr, exit status) and a ghost trace
    of the observable steps.  A thrown JavaScript exception is the [Throw]
    outcome; the mutations made before the throw are kept, as in JavaScript.

    [async] methods are run to completion in program order: none of the
    awaited calls of [serve] interleaves with another writer of the
    registries.  The one call that the code does not await, the
    constructor's [this.serve()], is split where [serve] first gives control
    back: [EasyMCP.constructor] ends there, and [EasyMCP.new] follows the
    pending promise until it has settled.  Calls on [this] are dispatched on
    the instance: an own property of the subclass prototype shadows the
    method of [BaseMCP] of that name. *)

From Stdlib Require Import String Ascii List Bool ZArith Lia DecimalString.
Import ListNotations.
Open Scope string_scope.

Set Implicit Arguments.

(** ** JavaScript values, exceptions and outcomes *)

(** The error classes the code distinguishes with [instanceof], and the ones
    of the specification's taxonomy. [ErrorC] is the built-in [Error]. *)
Inductive ErrorClass : Type :=
| ErrorC
| TypeErrorC
| ResourceErrorC
| ResourceNotFoundErrorC
| DuplicateResourceErrorC
| ToolNotFoundErrorC
| PromptNotFoundErrorC
| MissingArgumentErrorC
| ToolExecutionErrorC
| PromptExecutionErrorC.

Definition ErrorClass_eqb (a b : ErrorClass) : bool :=
  match a, b with
  | ErrorC, ErrorC | TypeErrorC, TypeErrorC
  | ResourceErrorC, ResourceErrorC
  | ResourceNotFoundErrorC, ResourceNotFoundErrorC
  | DuplicateResourceErrorC, DuplicateResourceErrorC
  | ToolNotFoundErrorC, ToolNotFoundErrorC
  | PromptNotFoundErrorC, PromptNotFoundErrorC
  | MissingArgumentErrorC, MissingArgumentErrorC
  | ToolExecutionErrorC, ToolExecutionErrorC
  | PromptExecutionErrorC, PromptExecutionErrorC => true
  | _, _ => false
  end.

(** A thrown value: [e.constructor] and [e.message]. *)
Record JsError : Type := mkError {
  err_class : ErrorClass;
  err_message : string
}.

(** [e instanceof ResourceNotFoundError] *)
Definition instanceof (e : JsError) (c : ErrorClass) : bool :=
  ErrorClass_eqb (err_class e) c.

Inductive Result (A : Type) : Type :=
| Ok (a : A)
| Throw (e : JsError).
Arguments Ok {A} a.
Arguments Throw {A} e.

Inductive JsValue : Type :=
| JUndefined
| JNull
| JBool (b : bool)
| JNum (z : Z)
| JStr (s : string).

(** A plain JavaScript object used as a dictionary of arguments. *)
Definition Args : Type := list (string * JsValue).

Definition hasKey (k : string) (a : Args) : bool :=
  existsb (fun kv => String.eqb (fst kv) k) a.

(** ** The SDK's protocol types *)

(** [LoggingLevel] of [@modelcontextprotocol/sdk/types.js]. *)
Inductive LoggingLevel : Type :=
| debug | info | notice | warning | error | critical | alert | emergency.

Record LoggingCapability : Type := { levels : list LoggingLevel }.

(** [ServerCapabilities]: an absent key is [None], the empty object [{}]
    that the code assigns is [Some tt]. *)
Record ServerCapabilities : Type := {
  cap_resources : option unit;
  cap_logging : option LoggingCapability;
  cap_tools : option unit;
  cap_prompts : option unit;
  cap_roots : option unit
}.

(** The request schemas [registerCoreHandlers] binds. *)
Inductive RequestSchema : Type :=
| ListResourcesRequestSchema
| ListResourceTemplatesRequestSchema
| ReadResourceRequestSchema
| ListToolsRequestSchema
| CallToolRequestSchema
| ListPromptsRequestSchema
| GetPromptRequestSchema
| ListRootsRequestSchema.

Definition RequestSchema_eqb (a b : RequestSchema) : bool :=
  match a, b with
  | ListResourcesRequestSchema, ListResourcesRequestSchema
  | ListResourceTemplatesRequestSchema, ListResourceTemplatesRequestSchema
  | ReadResourceRequestSchema, ReadResourceRequestSchema
  | ListToolsRequestSchema, ListToolsRequestSchema
  | CallToolRequestSchema, CallToolRequestSchema
  | ListPromptsRequestSchema, ListPromptsRequestSchema
  | GetPromptRequestSchema, GetPromptRequestSchema
  | ListRootsRequestSchema, ListRootsRequestSchema => true
  | _, _ => false
  end.

Lemma RequestSchema_eqb_eq (a b : RequestSchema) :
  RequestSchema_eqb a b = true <-> a = b.
Proof. destruct a, b; simpl; split; congruence. Qed.

Record Root : Type := {
  root_uri : string;
  root_name : option string
}.

Record ResourceContents : Type := {
  rc_uri : string;
  rc_mimeType : option string;
  rc_text : string
}.

Record ReadResourceResult : Type := { contents : list ResourceContents }.

Record TextContent : Type := {
  tc_type : string;
  tc_text : string
}.

Record CallToolResult : Type := { content : list TextContent }.

Record PromptMessage : Type := {
  pm_role : string;
  pm_content : TextContent
}.

Record GetPromptResult : Type := { messages : list PromptMessage }.

(** [request.params._meta] of a call-tool request. *)
Record CallToolMeta : Type := { progressToken : option string }.

(** The SDK's [Server], as far as this code drives it: what it was
    constructed with, the schemas that have a handler, whether [connect]
    completed, and the logging notifications sent so far. *)
Record Server : Type := {
  srv_name : string;
  srv_version : string;
  srv_capabilities : ServerCapabilities;
  srv_handlers : list RequestSchema;
  srv_connected : bool;
  srv_logs : list (LoggingLevel * string)
}.

Definition hasHandler (s : RequestSchema) (srv : Server) : bool :=
  existsb (RequestSchema_eqb s) (srv_handlers srv).

(** [server.setRequestHandler(schema, handler)]: the handlers are closures
    over [this], so recording the schema determines the handler. *)
Definition setRequestHandler (s : RequestSchema) (srv : Server) : Server :=
  {| srv_name := srv_name srv;
     srv_version := srv_version srv;
     srv_capabilities := srv_capabilities srv;
     srv_handlers := srv_handlers srv ++ [s];
     srv_connected := srv_connected srv;
     srv_logs := srv_logs srv |}.

Definition markConnected (srv : Server) : Server :=
  {| srv_name := srv_name srv;
     srv_version := srv_version srv;
     srv_capabilities := srv_capabilities srv;
     srv_handlers := srv_handlers srv;
     srv_connected := true;
     srv_logs := srv_logs srv |}.

(** The server once a logging notification has gone out. *)
Definition logged (l : LoggingLevel) (msg : string) (srv : Server) : Server :=
  {| srv_name := srv_name srv;
     srv_version := srv_version srv;
     srv_capabilities := srv_capabilities srv;
     srv_handlers := srv_handlers srv;
     srv_connected := srv_connected srv;
     srv_logs := srv_logs srv ++ [(l, msg)] |}.

(** [server.sendLoggingMessage({ level, message })]: the outcome of the
    promise it returns. On a server that is not connected nothing is sent
    and the promise is rejected with "Not connected". *)
Definition sendLoggingMessage (l : LoggingLevel) (msg : string) (srv : Server)
  : Result Server :=
  if srv_connected srv then Ok (logged l msg srv)
  else Throw (mkError ErrorC "Not connected").

(** ** Collaborators that are imported but not part of these two files *)

Inductive DuplicatePolicy : Type := Replace | Reject.

(** [LOG_LEVELS] and [LogFormatter.format] of [./LogFormatter], the text
    coercion applied to a handler's return value, and the policy of the name
    keyed registries on a duplicate name, which the specification leaves
    open.  Everything below holds for every choice of them. *)
Class Collaborators : Type := {
  LOG_LEVELS : list LoggingLevel;
  format : LoggingLevel -> string -> string;
  coerceText : JsValue -> string;
  duplicatePolicy : DuplicatePolicy
}.

(** ** Configuration records of [../types] *)

Record ResourceConfig : Type := {
  res_uri : string;
  res_name : string;
  res_description : option string;
  res_mimeType : option string;
  res_fn : unit -> Result string
}.

Record ResourceTemplateConfig : Type := {
  tpl_uriTemplate : string;
  tpl_name : string;
  tpl_description : option string;
  tpl_mimeType : option string;
  tpl_fn : list (string * string) -> Result string
}.

Record ResourceInfo : Type := {
  ri_uri : string;
  ri_name : string;
  ri_description : option string;
  ri_mimeType : option string
}.

Record InputSpec : Type := {
  input_name : string;
  input_type : string;
  input_description : string;
  input_required : bool
}.

Record ToolInfo : Type := {
  ti_name : string;
  ti_description : string;
  ti_inputs : list InputSpec
}.

(** ** ResourceManager *)

Module ResourceManager.

Record t : Type := {
  resources : list ResourceConfig;
  templates : list ResourceTemplateConfig
}.

Definition create : t := {| resources := []; templates := [] |}.

Definition hasResource (uri : string) (rm : t) : bool :=
  existsb (fun r => String.eqb (res_uri r) uri) (resources rm).

(** Modelled from the spec: [ResourceManager.addResource] is not among the
    source files; section 4.1: fails with DuplicateResourceError if the
    uri is already present. *)
Definition addResource (c : ResourceConfig) (rm : t) : Result t :=
  if hasResource (res_uri c) rm
  then Throw (mkError DuplicateResourceErrorC (res_uri c))
  else Ok {| resources := resources rm ++ [c]; templates := templates rm |}.

(** Modelled from the spec: [ResourceManager.addTemplate] is not among the
    source files; section 4.1: appends to the template list, no uniqueness
    check. *)
Definition addTemplate (c : ResourceTemplateConfig) (rm : t) : t :=
  {| resources := resources rm; templates := templates rm ++ [c] |}.

(** Modelled from the spec: [listResources] and [listTemplates] are not
    among the source files; section 4.1: read-only snapshots, metadata
    only, no handlers. *)
Definition listResources (rm : t) : list ResourceInfo :=
  map (fun r => {| ri_uri := res_uri r; ri_name := res_name r;
                   ri_description := res_description r;
                   ri_mimeType := res_mimeType r |}) (resources rm).

Definition listTemplates (rm : t) : list ResourceInfo :=
  map (fun r => {| ri_uri := tpl_uriTemplate r; ri_name := tpl_name r;
                   ri_description := tpl_description r;
                   ri_mimeType := tpl_mimeType r |}) (templates rm).

(** A compiled uri template: literal text and [{variable}] placeholders. *)
Inductive Segment : Type :=
| Lit (s : string)
| Var (v : string).

Definition lit (s : string) : list Segment :=
  if String.eqb s "" then [] else [Lit s].

Definition snoc (s : string) (c : ascii) : string := s ++ String c "".

(** Modelled from the spec: the template compiler is not among the source
    files; section 4.1: a template is compiled into literal and variable
    segments. [inVar] says that an opening brace has been read, [acc] is
    the text of the current segment. *)
Fixpoint compileFrom (inVar : bool) (acc : string) (tpl : string)
  : list Segment :=
  match tpl with
  | EmptyString => if inVar then lit (String "{" acc) else lit acc
  | String c rest =>
      if inVar then
        if Ascii.eqb c "}" then Var acc :: compileFrom false "" rest
        else compileFrom true (snoc acc c) rest
      else
        if Ascii.eqb c "{" then lit acc ++ compileFrom true "" rest
        else compileFrom false (snoc acc c) rest
  end.

Definition compile (tpl : string) : list Segment := compileFrom false "" tpl.

Definition dropPrefix (n : nat) (s : string) : string :=
  substring n (String.length s - n) s.

(** Modelled from the spec: the matcher is not among the source files;
    section 4.1: literal segments must match byte for byte, a variable
    captures the substring up to the next literal boundary, or to the end
    of the string when it is the last segment. *)
Fixpoint matchSegments (segs : list Segment) (uri : string)
  : option (list (string * string)) :=
  match segs with
  | [] => if String.eqb uri "" then Some [] else None
  | Lit l :: rest =>
      if prefix l uri then matchSegments rest (dropPrefix (String.length l) uri)
      else None
  | Var v :: rest =>
      match rest with
      | [] => Some [(v, uri)]
      | Lit l :: _ =>
          match index 0 l uri with
          | Some i =>
              option_map (cons (v, substring 0 i uri))
                         (matchSegments rest (dropPrefix i uri))
          | None => None
          end
      | Var _ :: _ =>
          option_map (cons (v, "")) (matchSegments rest uri)
      end
  end.

Definition matchTemplate (tpl uri : string) : option (list (string * string)) :=
  matchSegments (compile tpl) uri.

(** The handler's content wrapped as a read result; an exception of the
    handler is re-raised as [ResourceError] with its message (section
    4.1). *)
Definition invoke (uri : string) (mime : option string) (r : Result string)
  : Result ReadResourceResult :=
  match r with
  | Ok text =>
      Ok {| contents := [ {| rc_uri := uri; rc_mimeType := mime;
                             rc_text := text |} ] |}
  | Throw e => Throw (mkError ResourceErrorC (err_message e))
  end.

Fixpoint getFromTemplates (ts : list ResourceTemplateConfig) (uri : string)
  : Result ReadResourceResult :=
  match ts with
  | [] => Throw (mkError ResourceNotFoundErrorC uri)
  | tpl :: rest =>
      match matchTemplate (tpl_uriTemplate tpl) uri with
      | Some vars => invoke uri (tpl_mimeType tpl) (tpl_fn tpl vars)
      | None => getFromTemplates rest uri
      end
  end.

(** Modelled from the spec: [ResourceManager.get] is not among the source
    files; section 4.1: (1) exact match against the static resources,
    (2) else the templates in registration order, first match wins,
    (3) else ResourceNotFoundError. *)
Definition get (uri : string) (rm : t) : Result ReadResourceResult :=
  match find (fun r => String.eqb (res_uri r) uri) (resources rm) with
  | Some r => invoke uri (res_mimeType r) (res_fn r tt)
  | None => getFromTemplates (templates rm) uri
  end.

End ResourceManager.

(** [Context] of [./Context]: built per call-tool request from the server,
    the resource manager and the request's [_meta]. *)
Record Context : Type := {
  ctx_server : Server;
  ctx_resourceManager : ResourceManager.t;
  ctx_meta : option CallToolMeta
}.

Record ToolConfig : Type := {
  tool_name : string;
  tool_description : string;
  tool_inputs : list InputSpec;
  tool_fn : Args -> Context -> Result JsValue
}.

Record PromptConfig : Type := {
  prompt_name : string;
  prompt_description : string;
  prompt_args : list InputSpec;
  prompt_fn : Args -> Result JsValue
}.

(** The first required input whose key is absent from the arguments. *)
Definition missingArgument (inputs : list InputSpec) (args : Args)
  : option InputSpec :=
  find (fun i => input_required i && negb (hasKey (input_name i) args)) inputs.

(** ** ToolManager *)

Module ToolManager.

Definition t : Type := list ToolConfig.

Definition create : t := [].

Definition has (name : string) (tm : t) : bool :=
  existsb (fun c => String.eqb (tool_name c) name) tm.

(** Modelled from the spec: [ToolManager.add] is not among the source
    files; sections 3 and 4.2: names are unique, a duplicate registration
    replaces the prior entry or is rejected. *)
Definition add `{Collaborators} (c : ToolConfig) (tm : t) : Result t :=
  if has (tool_name c) tm then
    match duplicatePolicy with
    | Replace =>
        Ok (map (fun o => if String.eqb (tool_name o) (tool_name c)
                          then c else o) tm)
    | Reject => Throw (mkError ErrorC (tool_name c))
    end
  else Ok (tm ++ [c])%list.

(** Modelled from the spec: [ToolManager.list] is not among the source
    files; section 4.2: metadata snapshot (name, description, inputs). *)
Definition list (tm : t) : list ToolInfo :=
  map (fun c => {| ti_name := tool_name c;
                   ti_description := tool_description c;
                   ti_inputs := tool_inputs c |}) tm.

(** Modelled from the spec: [ToolManager.call] is not among the source
    files; section 4.2: look the tool up by name (ToolNotFoundError),
    check that every required input is present (MissingArgumentError),
    invoke the handler, coerce its return value to text; an exception of
    the handler propagates as ToolExecutionError with its message. *)
Definition call `{Collaborators} (name : string) (args : Args)
  (ctx : Context) (tm : t) : Result string :=
  match find (fun c => String.eqb (tool_name c) name) tm with
  | None => Throw (mkError ToolNotFoundErrorC name)
  | Some c =>
      match missingArgument (tool_inputs c) args with
      | Some i => Throw (mkError MissingArgumentErrorC (input_name i))
      | None =>
          match tool_fn c args ctx with
          | Ok v => Ok (coerceText v)
          | Throw e => Throw (mkError ToolExecutionErrorC (err_message e))
          end
      end
  end.

End ToolManager.

(** ** PromptManager *)

Module PromptManager.

Definition t : Type := list PromptConfig.

Definition create : t := [].

Definition has (name : string) (pm : t) : bool :=
  existsb (fun c => String.eqb (prompt_name c) name) pm.

(** Modelled from the spec: [PromptManager.add] is not among the source
    files; section 4.3: same shape as the tool registry. *)
Definition add `{Collaborators} (c : PromptConfig) (pm : t) : Result t :=
  if has (prompt_name c) pm then
    match duplicatePolicy with
    | Replace =>
        Ok (map (fun o => if String.eqb (prompt_name o) (prompt_name c)
                          then c else o) pm)
    | Reject => Throw (mkError ErrorC (prompt_name c))
    end
  else Ok (pm ++ [c])%list.

Definition list (pm : t) : list ToolInfo :=
  map (fun c => {| ti_name := prompt_name c;
                   ti_description := prompt_description c;
                   ti_inputs := prompt_args c |}) pm.

(** Modelled from the spec: [PromptManager.call] is not among the source
    files; section 4.3: validates required inputs as the tool registry
    does and invokes [handler(args)]. *)
Definition call `{Collaborators} (name : string) (args : Args) (pm : t)
  : Result string :=
  match find (fun c => String.eqb (prompt_name c) name) pm with
  | None => Throw (mkError PromptNotFoundErrorC name)
  | Some c =>
      match missingArgument (prompt_args c) args with
      | Some i => Throw (mkError MissingArgumentErrorC (input_name i))
      | None =>
          match prompt_fn c args with
          | Ok v => Ok (coerceText v)
          | Throw e => Throw (mkError PromptExecutionErrorC (err_message e))
          end
      end
  end.

End PromptManager.

(** ** RootsManager *)

Module RootsManager.

Definition t : Type := list Root.

Definition create : t := [].

(** Modelled from the spec: [RootsManager.add] and [list] are not among
    the source files; section 4.4: [add] appends unconditionally, [list]
    returns the full ordered sequence. *)
Definition add (r : Root) (rs : t) : t := (rs ++ [r])%list.

Definition list (rs : t) : list Root := rs.

End RootsManager.

(** ** The instance, the process and the monad of its methods *)

Record ServerOptions : Type := {
  version : string;
  description : option string
}.

Module BaseMCP.

Record t : Type := {
  name : string;
  opts : ServerOptions;
  resourceManager : ResourceManager.t;
  toolManager : ToolManager.t;
  promptManager : PromptManager.t;
  rootsManager : RootsManager.t;
  server : option Server
}.

(** [constructor(name, opts)] and [static create(name, opts)] *)
Definition create (n : string) (o : ServerOptions) : t :=
  {| name := n; opts := o;
     resourceManager := ResourceManager.create;
     toolManager := ToolManager.create;
     promptManager := PromptManager.create;
     rootsManager := RootsManager.create;
     server := None |}.

Definition set_name (n : string) (b : t) : t :=
  {| name := n; opts := opts b; resourceManager := resourceManager b;
     toolManager := toolManager b; promptManager := promptManager b;
     rootsManager := rootsManager b; server := server b |}.

Definition set_resourceManager (r : ResourceManager.t) (b : t) : t :=
  {| name := name b; opts := opts b; resourceManager := r;
     toolManager := toolManager b; promptManager := promptManager b;
     rootsManager := rootsManager b; server := server b |}.

Definition set_toolManager (r : ToolManager.t) (b : t) : t :=
  {| name := name b; opts := opts b; resourceManager := resourceManager b;
     toolManager := r; promptManager := promptManager b;
     rootsManager := rootsManager b; server := server b |}.

Definition set_promptManager (r : PromptManager.t) (b : t) : t :=
  {| name := name b; opts := opts b; resourceManager := resourceManager b;
     toolManager := toolManager b; promptManager := r;
     rootsManager := rootsManager b; server := server b |}.

Definition set_rootsManager (r : RootsManager.t) (b : t) : t :=
  {| name := name b; opts := opts b; resourceManager := resourceManager b;
     toolManager := toolManager b; promptManager := promptManager b;
     rootsManager := r; server := server b |}.

Definition set_server (s : option Server) (b : t) : t :=
  {| name := name b; opts := opts b; resourceManager := resourceManager b;
     toolManager := toolManager b; promptManager := promptManager b;
     rootsManager := rootsManager b; server := s |}.

End BaseMCP.

(** The kinds of registry entry, and the observable steps of an instance's
    life, recorded in program order. *)
Inductive Kind : Type := KRoot | KTool | KPrompt | KResource | KTemplate.

Inductive Event : Type :=
| EvRegister (k : Kind) (key : string)
| EvServe
| EvNegotiate (c : ServerCapabilities)
| EvBind (s : RequestSchema)
| EvConnect.

Record Machine : Type := {
  self : BaseMCP.t;
  stderr : list (string * JsError);
  exitCode : option Z;
  events : list Event
}.

Definition M (A : Type) : Type := Machine -> Result A * Machine.

Definition ret {A} (a : A) : M A := fun m => (Ok a, m).

Definition throw {A} (e : JsError) : M A := fun m => (Throw e, m).

Definition bind {A B} (c : M A) (k : A -> M B) : M B :=
  fun m =>
    match c m with
    | (Ok a, m') => k a m'
    | (Throw e, m') => (Throw e, m')
    end.

(** [try { c } catch (e) { h e }] *)
Definition tryCatch {A} (c : M A) (h : JsError -> M A) : M A :=
  fun m =>
    match c m with
    | (Ok a, m') => (Ok a, m')
    | (Throw e, m') => h e m'
    end.

Declare Scope mcp_scope.
Delimit Scope mcp_scope with mcp.
Notation "x <- c ;; k" := (bind c (fun x => k))
  (at level 61, c at next level, right associativity) : mcp_scope.
Notation "c ;; k" := (bind c (fun _ => k))
  (at level 61, right associativity) : mcp_scope.
Open Scope mcp_scope.

Definition liftR {A} (r : Result A) : M A := fun m => (r, m).

Definition getSelf : M BaseMCP.t := fun m => (Ok (self m), m).

Definition modifySelf (f : BaseMCP.t -> BaseMCP.t) : M unit :=
  fun m => (Ok tt, {| self := f (self m); stderr := stderr m;
                      exitCode := exitCode m; events := events m |}).

Definition emit (e : Event) : M unit :=
  fun m => (Ok tt, {| self := self m; stderr := stderr m;
                      exitCode := exitCode m; events := events m ++ [e] |}).

(** [console.error(label, e)] *)
Definition consoleError (label : string) (e : JsError) : M unit :=
  fun m => (Ok tt, {| self := self m; stderr := stderr m ++ [(label, e)];
                      exitCode := exitCode m; events := events m |}).

(** [process.exit(code)] *)
Definition processExit (code : Z) : M unit :=
  fun m => (Ok tt, {| self := self m; stderr := stderr m;
                      exitCode := Some code; events := events m |}).

(** A promise that was dropped is rejected with [e]: nothing catches the
    rejection and the runtime ends the process with status 1. *)
Definition unhandledRejection (e : JsError) : M unit := processExit 1.

Definition when (b : bool) (c : M unit) : M unit := if b then c else ret tt.

(** [xs.forEach(f)] *)
Fixpoint forEach {A} (xs : list A) (f : A -> M unit) : M unit :=
  match xs with
  | [] => ret tt
  | x :: rest => f x ;; forEach rest f
  end.

(** JavaScript truthiness of [xs.length]. *)
Definition nonEmpty {A} (xs : list A) : bool :=
  negb (Nat.eqb (List.length xs) 0).

(** How the calls into the SDK end in one run of [serve]: each may throw. *)
Record Sdk : Type := {
  sdk_newTransport : Result unit;
  sdk_newServer : Result unit;
  sdk_setRequestHandler : RequestSchema -> Result unit;
  sdk_connect : Result unit
}.

Definition notInitialized : JsError :=
  mkError ErrorC "Server not initialized. Call serve() first.".

Record Capabilities : Type := {
  resources : list ResourceInfo;
  resourceTemplates : list ResourceInfo;
  tools : list ToolInfo;
  prompts : list ToolInfo;
  roots : list Root
}.

Record ServerInit : Type := { capabilities : ServerCapabilities }.

Section Methods.

Context `{Collaborators}.

Import BaseMCP.

Definition listCapabilities (this : BaseMCP.t) : Capabilities :=
  {| resources := ResourceManager.listResources (resourceManager this);
     resourceTemplates := ResourceManager.listTemplates (resourceManager this);
     tools := ToolManager.list (toolManager this);
     prompts := PromptManager.list (promptManager this);
     roots := RootsManager.list (rootsManager this) |}.

Definition registerCapabilities (this : BaseMCP.t) : ServerInit :=
  {| capabilities :=
      {| cap_resources :=
           if nonEmpty (ResourceManager.listResources (resourceManager this))
              || nonEmpty (ResourceManager.listTemplates (resourceManager this))
           then Some tt else None;
         cap_logging := Some {| levels := LOG_LEVELS |};
         cap_tools :=
           if nonEmpty (ToolManager.list (toolManager this))
           then Some tt else None;
         cap_prompts :=
           if nonEmpty (PromptManager.list (promptManager this))
           then Some tt else None;
         cap_roots :=
           if nonEmpty (RootsManager.list (rootsManager this))
           then Some tt else None |} |}.

(** [this.server.setRequestHandler(schema, ...)] *)
Definition bindHandler (sdk : Sdk) (s : RequestSchema) : M unit :=
  liftR (sdk_setRequestHandler sdk s) ;;
  modifySelf (fun b => set_server (option_map (setRequestHandler s) (server b)) b) ;;
  emit (EvBind s).

Definition registerCoreHandlers (sdk : Sdk) : M unit :=
  this <- getSelf ;;
  match server this with
  | None => throw notInitialized
  | Some _ =>
      let capabilities := listCapabilities this in
      when (nonEmpty (resources capabilities))
        (bindHandler sdk ListResourcesRequestSchema ;;
         bindHandler sdk ListResourceTemplatesRequestSchema ;;
         bindHandler sdk ReadResourceRequestSchema) ;;
      when (nonEmpty (tools capabilities))
        (bindHandler sdk ListToolsRequestSchema ;;
         bindHandler sdk CallToolRequestSchema) ;;
      when (nonEmpty (prompts capabilities))
        (bindHandler sdk ListPromptsRequestSchema ;;
         bindHandler sdk GetPromptRequestSchema) ;;
      when (nonEmpty (roots capabilities))
        (bindHandler sdk ListRootsRequestSchema)
  end.

(** [new Server({ name, version }, this.registerCapabilities())]: the
    argument is evaluated first. *)
Definition newServer (sdk : Sdk) : M unit :=
  this <- getSelf ;;
  let init := registerCapabilities this in
  emit (EvNegotiate (capabilities init)) ;;
  liftR (sdk_newServer sdk) ;;
  modifySelf (set_server (Some
    {| srv_name := name this;
       srv_version := version (opts this);
       srv_capabilities := capabilities init;
       srv_handlers := [];
       srv_connected := false;
       srv_logs := [] |})).

(** [await this.server.connect(transport)] *)
Definition connect (sdk : Sdk) : M unit :=
  liftR (sdk_connect sdk) ;;
  modifySelf (fun b => set_server (option_map markConnected (server b)) b) ;;
  emit EvConnect.

(** The body of the [try] block of [serve]. *)
Definition serveBody (sdk : Sdk) : M unit :=
  liftR (sdk_newTransport sdk) ;;
  newServer sdk ;;
  registerCoreHandlers sdk ;;
  connect sdk.

(** [serve]: entering it is recorded in the trace, then the [try] block
    runs; its [catch] clause logs the exception and exits with status 1. *)
Definition serve (sdk : Sdk) : M unit :=
  emit EvServe ;;
  tryCatch (serveBody sdk)
    (fun e => consoleError "Error starting server" e ;; processExit 1).

Definition tool (config : ToolConfig) : M unit :=
  this <- getSelf ;;
  tm <- liftR (ToolManager.add config (toolManager this)) ;;
  modifySelf (set_toolManager tm) ;;
  emit (EvRegister KTool (tool_name config)).

Definition resource (config : ResourceConfig) : M unit :=
  this <- getSelf ;;
  rm <- liftR (ResourceManager.addResource
                 {| res_uri := res_uri config;
                    res_name := res_name config;
                    res_description := res_description config;
                    res_mimeType := res_mimeType config;
                    res_fn := res_fn config |} (resourceManager this)) ;;
  modifySelf (set_resourceManager rm) ;;
  emit (EvRegister KResource (res_uri config)).

Definition template (config : ResourceTemplateConfig) : M unit :=
  this <- getSelf ;;
  modifySelf (set_resourceManager
    (ResourceManager.addTemplate
       {| tpl_uriTemplate := tpl_uriTemplate config;
          tpl_name := tpl_name config;
          tpl_description := tpl_description config;
          tpl_mimeType := tpl_mimeType config;
          tpl_fn := tpl_fn config |} (resourceManager this))) ;;
  emit (EvRegister KTemplate (tpl_uriTemplate config)).

Definition prompt (config : PromptConfig) : M unit :=
  this <- getSelf ;;
  pm <- liftR (PromptManager.add config (promptManager this)) ;;
  modifySelf (set_promptManager pm) ;;
  emit (EvRegister KPrompt (prompt_name config)).

Definition root (config : Root) : M unit :=
  this <- getSelf ;;
  modifySelf (set_rootsManager (RootsManager.add config (rootsManager this))) ;;
  emit (EvRegister KRoot (root_uri config)).

Definition createContext (meta : option CallToolMeta) : M Context :=
  this <- getSelf ;;
  match server this with
  | None => throw notInitialized
  | Some srv =>
      ret {| ctx_server := srv;
             ctx_resourceManager := resourceManager this;
             ctx_meta := meta |}
  end.

Definition sendLog (level : LoggingLevel) (message : string) : M unit :=
  this <- getSelf ;;
  match server this with
  | None => throw notInitialized
  | Some srv =>
      (* the promise is neither awaited nor caught *)
      match sendLoggingMessage level (format level message) srv with
      | Ok srv' => modifySelf (set_server (Some srv'))
      | Throw e => unhandledRejection e
      end
  end.

End Methods.

(** One call of a registration method of [BaseMCP]. *)
Inductive Registration : Type :=
| RegTool (config : ToolConfig)
| RegResource (config : ResourceConfig)
| RegTemplate (config : ResourceTemplateConfig)
| RegPrompt (config : PromptConfig)
| RegRoot (config : Root).

(** The name of the method of [BaseMCP] a registration calls. *)
Definition memberName (r : Registration) : string :=
  match r with
  | RegTool _ => "tool"
  | RegResource _ => "resource"
  | RegTemplate _ => "template"
  | RegPrompt _ => "prompt"
  | RegRoot _ => "root"
  end.

Definition register `{Collaborators} (r : Registration) : M unit :=
  match r with
  | RegTool config => tool config
  | RegResource config => resource config
  | RegTemplate config => template config
  | RegPrompt config => prompt config
  | RegRoot config => root config
  end.

(** ** [serve] when it is called and not awaited *)

(** [c], with its outcome kept as the state of the promise it returns. *)
Definition attempt {A} (c : M A) : M (Result A) :=
  fun m => (Ok (fst (c m)), snd (c m)).

Section Unawaited.

Context `{Collaborators}.

(** [this.serve()] up to the point where it gives control back to its
    caller: the transport and the server are constructed, a throw of either
    being caught at once, and [registerCoreHandlers] runs; [serve] then
    waits for the promise of [registerCoreHandlers], whose outcome is
    returned ([None] when the [catch] clause has already run). *)
Definition serveCalled (sdk : Sdk) : M (option (Result unit)) :=
  emit EvServe ;;
  tryCatch
    (liftR (sdk_newTransport sdk) ;;
     newServer sdk ;;
     handlers <- attempt (registerCoreHandlers sdk) ;;
     ret (Some handlers))
    (fun e => consoleError "Error starting server" e ;; processExit 1 ;;
              ret None).

(** The rest of [serve], run when the promise of [registerCoreHandlers]
    has settled with [handlers]. *)
Definition serveResumed (sdk : Sdk) (handlers : Result unit) : M unit :=
  tryCatch
    (liftR handlers ;; connect sdk)
    (fun e => consoleError "Error starting server" e ;; processExit 1).

(** What is left to run after the caller of [serve] has returned. *)
Definition settle (sdk : Sdk) (pending : option (Result unit)) : M unit :=
  match pending with
  | Some handlers => serveResumed sdk handlers
  | None => ret tt
  end.

End Unawaited.

(** ** The request handlers bound by [registerCoreHandlers] *)

Record CallToolRequest : Type := {
  ct_name : string;
  ct_arguments : Args;
  ct_meta : option CallToolMeta
}.

Inductive Request : Type :=
| ListResourcesRequest
| ListResourceTemplatesRequest
| ReadResourceRequest (uri : string)
| ListToolsRequest
| CallToolRequest_ (r : CallToolRequest)
| ListPromptsRequest
| GetPromptRequest (name : string) (arguments : Args)
| ListRootsRequest.

Inductive Response : Type :=
| ListResourcesResult (l : list ResourceInfo)
| ListResourceTemplatesResult (l : list ResourceInfo)
| ReadResourceResult_ (r : ReadResourceResult)
| ListToolsResult (l : list ToolInfo)
| CallToolResult_ (r : CallToolResult)
| ListPromptsResult (l : list ToolInfo)
| GetPromptResult_ (r : GetPromptResult)
| ListRootsResult (l : list Root).

Definition schemaOf (r : Request) : RequestSchema :=
  match r with
  | ListResourcesRequest => ListResourcesRequestSchema
  | ListResourceTemplatesRequest => ListResourceTemplatesRequestSchema
  | ReadResourceRequest _ => ReadResourceRequestSchema
  | ListToolsRequest => ListToolsRequestSchema
  | CallToolRequest_ _ => CallToolRequestSchema
  | ListPromptsRequest => ListPromptsRequestSchema
  | GetPromptRequest _ _ => GetPromptRequestSchema
  | ListRootsRequest => ListRootsRequestSchema
  end.

(** The placeholder of the read-resource handler. *)
Definition notFoundPlaceholder (uri : string) : ReadResourceResult :=
  {| contents := [ {| rc_uri := uri;
                      rc_mimeType := Some "text/plain";
                      rc_text := "Resource not found" |} ] |}.

Section Handlers.

Context `{Collaborators}.

Import BaseMCP.

(** The [catch] clause of the read-resource handler. [new ResourceError(m)]
    is an error of class ResourceError with message [m]. *)
Definition readResourceCatch (uri : string) (e : JsError)
  : M ReadResourceResult :=
  if instanceof e ResourceNotFoundErrorC
  then ret (notFoundPlaceholder uri)
  else throw (mkError ResourceErrorC (err_message e)).

(** The read-resource handler, for any behaviour [get] of
    [this.resourceManager.get]: that method is not part of these files, and
    the [try] block catches whatever it throws. *)
Definition readResourceHandlerWith
  (get : string -> ResourceManager.t -> Result ReadResourceResult)
  (uri : string) : M ReadResourceResult :=
  tryCatch
    (this <- getSelf ;;
     resourceResult <- liftR (get uri (resourceManager this)) ;;
     ret resourceResult)
    (readResourceCatch uri).

Definition readResourceHandler (uri : string) : M ReadResourceResult :=
  readResourceHandlerWith ResourceManager.get uri.

Definition callToolHandler (request : CallToolRequest) : M CallToolResult :=
  let progressToken := option_map progressToken (ct_meta request) in
  context <- createContext (ct_meta request) ;;
  this <- getSelf ;;
  result <- liftR (ToolManager.call (ct_name request) (ct_arguments request)
                     context (toolManager this)) ;;
  ret {| content := [ {| tc_type := "text"; tc_text := result |} ] |}.

Definition getPromptHandler (name : string) (arguments : Args)
  : M GetPromptResult :=
  this <- getSelf ;;
  result <- liftR (PromptManager.call name arguments (promptManager this)) ;;
  ret {| messages :=
           [ {| pm_role := "user";
                pm_content := {| tc_type := "text"; tc_text := result |} |} ] |}.

Definition fmap {A B} (f : A -> B) (c : M A) : M B :=
  a <- c ;; ret (f a).

(** The handler a schema was bound to. *)
Definition handler (r : Request) : M Response :=
  match r with
  | ListResourcesRequest =>
      this <- getSelf ;;
      ret (ListResourcesResult
             (ResourceManager.listResources (resourceManager this)))
  | ListResourceTemplatesRequest =>
      this <- getSelf ;;
      ret (ListResourceTemplatesResult
             (ResourceManager.listTemplates (resourceManager this)))
  | ReadResourceRequest uri => fmap ReadResourceResult_ (readResourceHandler uri)
  | ListToolsRequest =>
      this <- getSelf ;;
      ret (ListToolsResult (ToolManager.list (toolManager this)))
  | CallToolRequest_ request => fmap CallToolResult_ (callToolHandler request)
  | ListPromptsRequest =>
      this <- getSelf ;;
      ret (ListPromptsResult (PromptManager.list (promptManager this)))
  | GetPromptRequest name arguments =>
      fmap GetPromptResult_ (getPromptHandler name arguments)
  | ListRootsRequest =>
      this <- getSelf ;;
      ret (ListRootsResult (RootsManager.list (rootsManager this)))
  end.

(** An inbound request reaches this code only over a connected server that
    has a handler for its schema; otherwise the transport layer answers it
    ([None]). *)
Definition receive (r : Request) (m : Machine)
  : option (Result Response * Machine) :=
  match server (self m) with
  | Some srv =>
      if srv_connected srv && hasHandler (schemaOf r) srv
      then Some (handler r m) else None
  | None => None
  end.

End Handlers.

(** ** The Tool decorator ([src/lib/decorators/Tool.ts]) *)

Record FunctionConfig : Type := { fc_description : option string }.

Record ParameterMetadata : Type := {
  param_name : string;
  param_type : string;
  param_optional : bool
}.

Record FunctionMetadata : Type := { parameters : list ParameterMetadata }.

(** [fn[metadataKey]]: the configurations the decorators attach to a
    method. *)
Record MethodMetadata : Type := {
  toolConfig : option ToolConfig;
  promptConfig : option PromptConfig;
  rootConfig : option Root;
  resourceConfig : option ResourceConfig;
  resourceTemplateConfig : option ResourceTemplateConfig
}.

Definition emptyMetadata : MethodMetadata :=
  {| toolConfig := None; promptConfig := None; rootConfig := None;
     resourceConfig := None; resourceTemplateConfig := None |}.

(** A call the constructor makes on [this]: a registration or [serve]. *)
Inductive MemberCall : Type :=
| CallRegister (r : Registration)
| CallServe.

(** A function object: what calling it with a request's arguments and a
    context does, what calling it as the constructor calls a member of
    [this] does, and its [metadataKey] property ([None] when no decorator
    has attached one). The functions a user writes return or throw; in
    this model they do not touch the instance. *)
Record Method : Type := {
  method_call : Args -> Context -> Result JsValue;
  method_member : MemberCall -> Result unit;
  method_metadata : option MethodMetadata
}.

Inductive Property : Type :=
| PFunction (f : Method)
| PData.

(** A class prototype: its own properties in [getOwnPropertyNames] order. *)
Definition Prototype : Type := list (string * Property).

(** [extractFunctionMetadata] of [../MagicConfig], which is not among the
    source files. *)
Class MagicConfig : Type := {
  extractFunctionMetadata : Prototype -> string -> FunctionConfig -> FunctionMetadata
}.

(** [config.description || ""] *)
Definition orEmpty (s : option string) : string :=
  match s with
  | Some d => d
  | None => ""
  end.

Section ToolDecorator.

Context `{MagicConfig}.

(** [Tool(config)(target, propertyKey, descriptor)]: the descriptor's
    value after the decorator has attached the tool configuration to
    it. *)
Definition Tool (config : FunctionConfig) (target : Prototype)
  (propertyKey : string) (originalMethod : Method) : Method :=
  let metadata := extractFunctionMetadata target propertyKey config in
  let toolConfig : ToolConfig :=
    {| tool_name := propertyKey;
       tool_description := orEmpty (fc_description config);
       tool_inputs :=
         map (fun param =>
                {| input_name := param_name param;
                   input_type := param_type param;
                   input_description :=
                     "a " ++ param_name param ++ " of type " ++ param_type param;
                   input_required := negb (param_optional param) |})
             (parameters metadata);
       tool_fn := method_call originalMethod |} in
  let md := match method_metadata originalMethod with
            | Some md => md
            | None => emptyMetadata
            end in
  {| method_call := method_call originalMethod;
     method_member := method_member originalMethod;
     method_metadata :=
       Some {| toolConfig := Some toolConfig;
               promptConfig := promptConfig md;
               rootConfig := rootConfig md;
               resourceConfig := resourceConfig md;
               resourceTemplateConfig := resourceTemplateConfig md |} |}.

End ToolDecorator.

(** ** The EasyMCP constructor *)

(** The static [rootConfigs] of the class: absent, an array, or some other
    truthy value that is not an array. *)
Inductive StaticRootConfigs : Type :=
| RootConfigsUndefined
| RootConfigsArray (l : list Root)
| RootConfigsOther.

(** A subclass of EasyMCP as the constructor inspects it. *)
Record ClassDef : Type := {
  class_name : string;
  class_rootConfigs : StaticRootConfigs;
  class_prototype : Prototype
}.

(** [Object.getOwnPropertyNames(Object.prototype)] *)
Definition objectPrototypeNames : list string :=
  [ "constructor"; "__defineGetter__"; "__defineSetter__"; "hasOwnProperty";
    "__lookupGetter__"; "__lookupSetter__"; "isPrototypeOf";
    "propertyIsEnumerable"; "toString"; "valueOf"; "__proto__";
    "toLocaleString" ].

(** The own properties of the instance when the constructor looks at its
    methods: the fields [BaseMCP] assigns, none of them a function. *)
Definition instanceFields : list string :=
  [ "name"; "opts"; "resourceManager"; "toolManager"; "promptManager";
    "rootsManager"; "server" ].

Definition includes (xs : list string) (x : string) : bool :=
  existsb (String.eqb x) xs.

(** [this[key]] for an own property name [key] of the prototype: an own
    field of the instance shadows the prototype's property. *)
Definition lookupThis (cls : ClassDef) (key : string) : Property :=
  if includes instanceFields key then PData
  else match find (fun kv => String.eqb (fst kv) key) (class_prototype cls) with
       | Some kv => snd kv
       | None => PData
       end.

Definition isFunction (p : Property) : bool :=
  match p with
  | PFunction _ => true
  | PData => false
  end.

Definition childMethods (cls : ClassDef) : list string :=
  filter (fun method => negb (includes objectPrototypeNames method))
    (filter (fun method => isFunction (lookupThis cls method))
       (map fst (class_prototype cls))).

Definition undefinedProperty : JsError :=
  mkError TypeErrorC "Cannot read properties of undefined (reading 'toolConfig')".

Module EasyMCP.

(** [this[name]] for the name of a method of [BaseMCP]: an own property of
    the subclass prototype shadows the inherited method (no own field of
    the instance has such a name). [None]: the method of [BaseMCP] is the
    one found. *)
Definition shadowing (cls : ClassDef) (name : string) : option Property :=
  option_map snd
    (find (fun kv => String.eqb (fst kv) name) (class_prototype cls)).

Definition notAFunction (name : string) : JsError :=
  mkError TypeErrorC ("this." ++ name ++ " is not a function").

(** [this.name(...)]: the call is dispatched on the instance. *)
Definition dispatch {A} (cls : ClassDef) (name : string) (inherited : M A)
  (shadow : Method -> M A) : M A :=
  match shadowing cls name with
  | None => inherited
  | Some (PFunction f) => shadow f
  | Some PData => throw (notAFunction name)
  end.

Section Constructor.

Context `{Collaborators}.

(** [this.tool(config)], [this.prompt(config)], [this.root(config)],
    [this.resource(config)], [this.template(config)] *)
Definition thisRegister (cls : ClassDef) (r : Registration) : M unit :=
  dispatch cls (memberName r) (register r)
    (fun f => liftR (method_member f (CallRegister r))).

(** [this.serve()], not awaited: the promise that is left pending. *)
Definition thisServe (sdk : Sdk) (cls : ClassDef)
  : M (option (Result unit)) :=
  dispatch cls "serve" (serveCalled sdk)
    (fun f => liftR (method_member f CallServe) ;; ret None).

(** [if (cfg) register(cfg)] *)
Definition ifConfig {A} (cfg : option A) (register : A -> M unit) : M unit :=
  match cfg with
  | Some c => register c
  | None => ret tt
  end.

(** The body of [childMethods.forEach]. *)
Definition registerMethod (cls : ClassDef) (method : string) : M unit :=
  match lookupThis cls method with
  | PFunction f =>
      match method_metadata f with
      | Some md =>
          ifConfig (toolConfig md) (fun c => thisRegister cls (RegTool c)) ;;
          ifConfig (promptConfig md) (fun c => thisRegister cls (RegPrompt c)) ;;
          ifConfig (rootConfig md) (fun c => thisRegister cls (RegRoot c)) ;;
          ifConfig (resourceConfig md)
            (fun c => thisRegister cls (RegResource c)) ;;
          ifConfig (resourceTemplateConfig md)
            (fun c => thisRegister cls (RegTemplate c))
      | None => throw undefinedProperty
      end
  | PData => throw undefinedProperty
  end.

(** The constructor, up to its return: its result is the promise of
    [serve] that it leaves pending. *)
Definition constructor (sdk : Sdk) (cls : ClassDef) (version : string)
  (description : option string) : M (option (Result unit)) :=
  (* super("", { version, description }) *)
  modifySelf (fun _ => BaseMCP.create ""
                {| version := version; description := description |}) ;;
  modifySelf (BaseMCP.set_name (class_name cls)) ;;
  match class_rootConfigs cls with
  | RootConfigsArray rootConfigs =>
      forEach rootConfigs (fun c => thisRegister cls (RegRoot c))
  | _ => ret tt
  end ;;
  forEach (childMethods cls) (registerMethod cls) ;;
  thisServe sdk cls.

(** The process before the instance exists. *)
Definition boot : Machine :=
  {| self := BaseMCP.create "" {| version := ""; description := None |};
     stderr := []; exitCode := None; events := [] |}.

(** [new Sub({ version, description })] in a fresh process, followed until
    the promise of [serve] that the constructor left pending has
    settled. *)
Definition new (sdk : Sdk) (cls : ClassDef) (version : string)
  (description : option string) : Result unit * Machine :=
  (pending <- constructor sdk cls version description ;;
   settle sdk pending) boot.

End Constructor.

End EasyMCP.

(** ** Concrete instances used to run the model *)

Module Demo.

Definition levelName (l : LoggingLevel) : string :=
  match l with
  | debug => "debug" | info => "info" | notice => "notice"
  | warning => "warning" | error => "error" | critical => "critical"
  | alert => "alert" | emergency => "emergency"
  end.

(** [String(v)] *)
Definition toText (v : JsValue) : string :=
  match v with
  | JUndefined => "undefined"
  | JNull => "null"
  | JBool true => "true"
  | JBool false => "false"
  | JNum z => DecimalString.NilZero.string_of_int (Z.to_int z)
  | JStr s => s
  end.

Definition collaborators : Collaborators :=
  {| LOG_LEVELS := [debug; info; notice; warning; error; critical; alert;
                    emergency];
     format := fun l msg => "[" ++ levelName l ++ "] " ++ msg;
     coerceText := toText;
     duplicatePolicy := Replace |}.

(** A run in which no call into the SDK throws. *)
Definition sdk : Sdk :=
  {| sdk_newTransport := Ok tt;
     sdk_newServer := Ok tt;
     sdk_setRequestHandler := fun _ => Ok tt;
     sdk_connect := Ok tt |}.

(** A run in which the transport handshake fails. *)
Definition sdkConnectFails : Sdk :=
  {| sdk_newTransport := Ok tt;
     sdk_newServer := Ok tt;
     sdk_setRequestHandler := fun _ => Ok tt;
     sdk_connect := Throw (mkError ErrorC "EPIPE") |}.

Definition aTxt : ResourceConfig :=
  {| res_uri := "file://a.txt"; res_name := "a";
     res_description := None; res_mimeType := Some "text/plain";
     res_fn := fun _ => Ok "hello" |}.

Definition broken : ResourceConfig :=
  {| res_uri := "file://broken"; res_name := "broken";
     res_description := None; res_mimeType := None;
     res_fn := fun _ => Throw (mkError ErrorC "disk on fire") |}.

Definition logs : ResourceTemplateConfig :=
  {| tpl_uriTemplate := "file://{name}.log"; tpl_name := "logs";
     tpl_description := None; tpl_mimeType := None;
     tpl_fn := fun vars =>
                 match vars with
                 | (_, v) :: _ => Ok ("log:" ++ v)
                 | [] => Ok "log:"
                 end |}.

Definition add : ToolConfig :=
  {| tool_name := "add"; tool_description := "adds two numbers";
     tool_inputs :=
       [ {| input_name := "a"; input_type := "number";
            input_description := "a a of type number";
            input_required := true |};
         {| input_name := "b"; input_type := "number";
            input_description := "a b of type number";
            input_required := true |} ];
     tool_fn := fun args _ =>
                  match args with
                  | [(_, JNum a); (_, JNum b)] => Ok (JNum (a + b))
                  | _ => Ok JUndefined
                  end |}.

Definition home : Root :=
  {| root_uri := "file:///home"; root_name := Some "home" |}.

Definition plain : Method :=
  {| method_call := fun _ _ => Ok JUndefined;
     method_member := fun _ => Ok tt;
     method_metadata := None |}.

Definition withMetadata (md : MethodMetadata) : Method :=
  {| method_call := fun _ _ => Ok JUndefined;
     method_member := fun _ => Ok tt;
     method_metadata := Some md |}.

(** A class whose only decorated method registers a resource template. *)
Definition templatesOnly : ClassDef :=
  {| class_name := "Logs";
     class_rootConfigs := RootConfigsUndefined;
     class_prototype :=
       [ ("constructor", PFunction plain);
         ("logs", PFunction (withMetadata
            {| toolConfig := None; promptConfig := None; rootConfig := None;
               resourceConfig := None;
               resourceTemplateConfig := Some logs |})) ] |}.

(** A class with a class-level root, a tool, a static resource and a
    template. *)
Definition full : ClassDef :=
  {| class_name := "Full";
     class_rootConfigs := RootConfigsArray [home];
     class_prototype :=
       [ ("constructor", PFunction plain);
         ("add", PFunction (withMetadata
            {| toolConfig := Some add; promptConfig := None;
               rootConfig := None; resourceConfig := None;
               resourceTemplateConfig := None |}));
         ("files", PFunction (withMetadata
            {| toolConfig := None; promptConfig := None; rootConfig := None;
               resourceConfig := Some aTxt;
               resourceTemplateConfig := Some logs |})) ] |}.

(** The instance of the specification's example: one static resource and
    one template, serving. *)
Definition serving : Machine :=
  Eval vm_compute in
    snd (@EasyMCP.new collaborators sdk full "1.0.0" None).

Definition magic : MagicConfig :=
  {| extractFunctionMetadata := fun _ _ _ =>
       {| parameters :=
            [ {| param_name := "a"; param_type := "number";
                 param_optional := false |};
              {| param_name := "note"; param_type := "string";
                 param_optional := true |} ] |} |}.

(** A class whose method [greet(a, note?)] carries the Tool decorator. *)
Definition decorated : ClassDef :=
  {| class_name := "Greeter";
     class_rootConfigs := RootConfigsUndefined;
     class_prototype :=
       [ ("constructor", PFunction plain);
         ("greet", PFunction
            (@Tool magic {| fc_description := Some "greets" |} [] "greet"
               plain)) ] |}.

End Demo.

(** ** Notions the statements are written with *)

Open Scope list_scope.

(** What [registerCapabilities] reads of the instance. *)
Definition registries (this : BaseMCP.t) :=
  (BaseMCP.resourceManager this, BaseMCP.toolManager this,
   BaseMCP.promptManager this, BaseMCP.rootsManager this).

(** The schemas [registerCoreHandlers] binds, in binding order. *)
Definition boundSchemas (this : BaseMCP.t) : list RequestSchema :=
  let capabilities := listCapabilities this in
  ((if nonEmpty (resources capabilities)
    then [ListResourcesRequestSchema; ListResourceTemplatesRequestSchema;
          ReadResourceRequestSchema] else []) ++
   (if nonEmpty (tools capabilities)
    then [ListToolsRequestSchema; CallToolRequestSchema] else []) ++
   (if nonEmpty (prompts capabilities)
    then [ListPromptsRequestSchema; GetPromptRequestSchema] else []) ++
   (if nonEmpty (roots capabilities)
    then [ListRootsRequestSchema] else []))%list.

Definition bindAll (ss : list RequestSchema) (srv : Server) : Server :=
  fold_left (fun srv s => setRequestHandler s srv) ss srv.

(** The machine after the handlers of [ss] have been bound. *)
Definition bound (ss : list RequestSchema) (m : Machine) : Machine :=
  {| self := BaseMCP.set_server
               (option_map (bindAll ss) (BaseMCP.server (self m))) (self m);
     stderr := stderr m;
     exitCode := exitCode m;
     events := events m ++ map EvBind ss |}.

(** The steps of the [try] block that call into the SDK, in order. *)
Definition serveSteps (sdk : Sdk) (this : BaseMCP.t) : list (Result unit) :=
  ([sdk_newTransport sdk; sdk_newServer sdk] ++
   map (sdk_setRequestHandler sdk) (boundSchemas this) ++
   [sdk_connect sdk])%list.

Fixpoint firstThrow (steps : list (Result unit)) : option JsError :=
  match steps with
  | [] => None
  | Ok _ :: rest => firstThrow rest
  | Throw e :: _ => Some e
  end.

(** The machine after the [catch] clause of [serve] has run. *)
Definition failed (e : JsError) (m : Machine) : Machine :=
  {| self := self m;
     stderr := stderr m ++ [("Error starting server"%string, e)];
     exitCode := Some 1%Z;
     events := events m |}.

(** The machine on which the [try] block of [serve] starts. *)
Definition entered (m : Machine) : Machine := snd (emit EvServe m).

Section Derived.

Context `{Collaborators}.

(** The server [serve] leaves behind when nothing throws. *)
Definition served (this : BaseMCP.t) : Server :=
  {| srv_name := BaseMCP.name this;
     srv_version := version (BaseMCP.opts this);
     srv_capabilities := capabilities (registerCapabilities this);
     srv_handlers := boundSchemas this;
     srv_connected := true;
     srv_logs := [] |}.

(** The events of a run of the [try] block in which nothing throws. *)
Definition serveTrace (this : BaseMCP.t) : list Event :=
  EvNegotiate (capabilities (registerCapabilities this))
    :: map EvBind (boundSchemas this) ++ [EvConnect].

(** The machine after [registerCapabilities] has been evaluated. *)
Definition negotiated (m : Machine) : Machine :=
  {| self := self m; stderr := stderr m; exitCode := exitCode m;
     events := events m
               ++ [EvNegotiate (capabilities (registerCapabilities (self m)))] |}.

(** The machine after [new Server(...)] has been assigned to
    [this.server]. *)
Definition created (m : Machine) : Machine :=
  {| self := BaseMCP.set_server (Some
       {| srv_name := BaseMCP.name (self m);
          srv_version := version (BaseMCP.opts (self m));
          srv_capabilities := capabilities (registerCapabilities (self m));
          srv_handlers := [];
          srv_connected := false;
          srv_logs := [] |}) (self m);
     stderr := stderr m; exitCode := exitCode m;
     events := events m
               ++ [EvNegotiate (capabilities (registerCapabilities (self m)))] |}.

(** The machine when the [try] block has completed. *)
Definition serving (m : Machine) : Machine :=
  {| self := BaseMCP.set_server (Some (served (self m))) (self m);
     stderr := stderr m; exitCode := exitCode m;
     events := events m ++ serveTrace (self m) |}.

(** A machine on which the [try] block was abandoned: the process state
    and the registries are those of [m], the server is the one [m] had or
    one that is not connected, and the events are a prefix of those of a
    complete run. *)
Definition abandoned (m m' : Machine) : Prop :=
  stderr m' = stderr m /\ exitCode m' = exitCode m /\
  registries (self m') = registries (self m) /\
  (BaseMCP.server (self m') = BaseMCP.server (self m) \/
   exists srv, BaseMCP.server (self m') = Some srv /\
               srv_connected srv = false) /\
  exists tail rest,
    events m' = events m ++ tail /\
    serveTrace (self m) = (tail ++ rest)%list /\ rest <> [].

(** The constructor up to, and without, its call of [serve]. *)
Definition registrationPhase (cls : ClassDef) (version : string)
  (description : option string) : M unit :=
  modifySelf (fun _ => BaseMCP.create ""
                {| version := version; description := description |}) ;;
  modifySelf (BaseMCP.set_name (class_name cls)) ;;
  match class_rootConfigs cls with
  | RootConfigsArray rootConfigs =>
      forEach rootConfigs (fun c => EasyMCP.thisRegister cls (RegRoot c))
  | _ => ret tt
  end ;;
  forEach (childMethods cls) (EasyMCP.registerMethod cls).

End Derived.

Definition registrationEvent (r : Kind * string) : Event :=
  EvRegister (fst r) (snd r).








(** What a registration enters into its registry. *)
Definition regKey (r : Registration) : Kind * string :=
  match r with
  | RegTool c => (KTool, tool_name c)
  | RegResource c => (KResource, res_uri c)
  | RegTemplate c => (KTemplate, tpl_uriTemplate c)
  | RegPrompt c => (KPrompt, prompt_name c)
  | RegRoot c => (KRoot, root_uri c)
  end.



(** What [this.tool(config)] and the like enter into a registry: nothing
    when the subclass shadows the method. *)
Definition effective (cls : ClassDef) (r : Registration)
  : list (Kind * string) :=
  match EasyMCP.shadowing cls (memberName r) with
  | None => [regKey r]
  | Some _ => []
  end.

Definition optl {A B} (f : A -> list B) (o : option A) : list B :=
  match o with
  | Some a => f a
  | None => []
  end.

(** What the constructor enters into the registries for one method. *)
Definition performedOf (cls : ClassDef) (method : string)
  : list (Kind * string) :=
  match lookupThis cls method with
  | PFunction f =>
      match method_metadata f with
      | Some md =>
          optl (fun c => effective cls (RegTool c)) (toolConfig md) ++
          optl (fun c => effective cls (RegPrompt c)) (promptConfig md) ++
          optl (fun c => effective cls (RegRoot c)) (rootConfig md) ++
          optl (fun c => effective cls (RegResource c)) (resourceConfig md) ++
          optl (fun c => effective cls (RegTemplate c))
               (resourceTemplateConfig md)
      | None => []
      end
  | PData => []
  end.

(** What the constructor enters into the registries, in order, when no
    call throws. *)
Definition performed (cls : ClassDef) : list (Kind * string) :=
  match class_rootConfigs cls with
  | RootConfigsArray rootConfigs =>
      flat_map (fun c => effective cls (RegRoot c)) rootConfigs
  | _ => []
  end ++ flat_map (performedOf cls) (childMethods cls).








(** [c] performs the registrations [rs] in order and emits nothing else; if
    it throws, it has performed a prefix of them. *)
Definition Registers (c : M unit) (rs : list (Kind * string)) : Prop :=
  forall m, exists done,
    events (snd (c m)) = events m ++ map registrationEvent done /\
    match fst (c m) with
    | Ok _ => done = rs
    | Throw _ => exists rest, rs = done ++ rest
    end.


(** A resource manager whose [get] fails with an error of its own. *)
Definition faultyGet (uri : string) (rm : ResourceManager.t)
  : Result ReadResourceResult :=
  Throw (mkError TypeErrorC "boom").

(** An instance with one static resource whose handler throws. *)
Definition withBrokenResource : Machine :=
  Eval vm_compute in snd (resource Demo.broken EasyMCP.boot).

Definition addRequest : CallToolRequest :=
  {| ct_name := "add";
     ct_arguments := [("a"%string, JNum 1); ("b"%string, JNum 2)];
     ct_meta := None |}.

(** ** Further notions and instances *)

(** [c] leaves the observation [f] of the machine as it was, whether it
    returns or throws. *)
Definition Preserves {X A} (f : Machine -> X) (c : M A) : Prop :=
  forall m, f (snd (c m)) = f m.

(** What a registration never touches: the identity of the instance, its
    server, and the process. *)
Definition shell (m : Machine) :=
  (BaseMCP.name (self m), BaseMCP.opts (self m), BaseMCP.server (self m),
   stderr m, exitCode m).

(** What [serve] never touches: the identity of the instance and its
    registries. *)
Definition core (m : Machine) :=
  (BaseMCP.name (self m), BaseMCP.opts (self m), registries (self m)).

(** The logging notifications of the server, if there is one. *)
Definition sentLogs (m : Machine) : list (LoggingLevel * string) :=
  match BaseMCP.server (self m) with
  | Some srv => srv_logs srv
  | None => []
  end.

(** No call into the SDK throws in this run. *)
Definition NeverThrows (sdk : Sdk) : Prop :=
  sdk_newTransport sdk = Ok tt /\
  sdk_newServer sdk = Ok tt /\
  (forall s, sdk_setRequestHandler sdk s = Ok tt) /\
  sdk_connect sdk = Ok tt.

(** The capability set that only carries the logging flag. *)
Definition loggingOnly `{Collaborators} : ServerCapabilities :=
  {| cap_resources := None;
     cap_logging := Some {| levels := LOG_LEVELS |};
     cap_tools := None;
     cap_prompts := None;
     cap_roots := None |}.

(** [fn[metadataKey]], read as the empty object when it is absent. *)
Definition configsOf (f : Method) : MethodMetadata :=
  match method_metadata f with
  | Some md => md
  | None => emptyMetadata
  end.

Module Fixtures.

Definition greeting : PromptConfig :=
  {| prompt_name := "greeting"; prompt_description := "greets";
     prompt_args :=
       [ {| input_name := "who"; input_type := "string";
            input_description := "a who of type string";
            input_required := true |} ];
     prompt_fn := fun args =>
                    match args with
                    | (_, JStr who) :: _ => Ok (JStr ("Hello, " ++ who)%string)
                    | _ => Ok (JStr "Hello")
                    end |}.

(** A class with one prompt. *)
Definition prompting : ClassDef :=
  {| class_name := "Prompting";
     class_rootConfigs := RootConfigsUndefined;
     class_prototype :=
       [ ("constructor"%string, PFunction Demo.plain);
         ("greeting"%string, PFunction (Demo.withMetadata
            {| toolConfig := None; promptConfig := Some greeting;
               rootConfig := None; resourceConfig := None;
               resourceTemplateConfig := None |})) ] |}.

Definition promptServing : Machine :=
  Eval vm_compute in
    snd (@EasyMCP.new Demo.collaborators Demo.sdk prompting "2.0.0" None).

(** A class with a decorated method and a helper method that carries no
    decorator. *)
Definition undecorated : ClassDef :=
  {| class_name := "Helper";
     class_rootConfigs := RootConfigsUndefined;
     class_prototype :=
       [ ("constructor"%string, PFunction Demo.plain);
         ("add"%string, PFunction (Demo.withMetadata
            {| toolConfig := Some Demo.add; promptConfig := None;
               rootConfig := None; resourceConfig := None;
               resourceTemplateConfig := None |}));
         ("helper"%string, PFunction Demo.plain) ] |}.

(** A run in which the transport cannot be constructed. *)
Definition sdkTransportFails : Sdk :=
  {| sdk_newTransport := Throw (mkError ErrorC "no stdio");
     sdk_newServer := Ok tt;
     sdk_setRequestHandler := fun _ => Ok tt;
     sdk_connect := Ok tt |}.

(** A run in which the server cannot be constructed. *)
Definition sdkServerFails : Sdk :=
  {| sdk_newTransport := Ok tt;
     sdk_newServer := Throw (mkError ErrorC "bad capabilities");
     sdk_setRequestHandler := fun _ => Ok tt;
     sdk_connect := Ok tt |}.

Definition greetRequest : Args := [("who"%string, JStr "Ada")].

Definition toolOnly (c : ToolConfig) : MethodMetadata :=
  {| toolConfig := Some c; promptConfig := None; rootConfig := None;
     resourceConfig := None; resourceTemplateConfig := None |}.



(** A class with a decorated method [add] and a decorated method that is
    itself named [serve]. *)
Definition shadowsServe : ClassDef :=
  {| class_name := "Quiet";
     class_rootConfigs := RootConfigsUndefined;
     class_prototype :=
       [ ("constructor"%string, PFunction Demo.plain);
         ("add"%string, PFunction (Demo.withMetadata (toolOnly Demo.add)));
         ("serve"%string, PFunction
            (@Tool Demo.magic {| fc_description := None |} [] "serve"
               Demo.plain)) ] |}.

(** A run in which binding the call-tool handler fails. *)
Definition sdkBindFails : Sdk :=
  {| sdk_newTransport := Ok tt;
     sdk_newServer := Ok tt;
     sdk_setRequestHandler := fun s =>
       match s with
       | CallToolRequestSchema => Throw (mkError ErrorC "no such capability")
       | _ => Ok tt
       end;
     sdk_connect := Ok tt |}.

End Fixtures.

(** ** Capability negotiation *)

Lemma nonEmpty_map {A B} (f : A -> B) (xs : list A) :
  nonEmpty (map f xs) = nonEmpty xs.
Proof. unfold nonEmpty. now rewrite length_map. Qed.

Lemma nonEmpty_true {A} (xs : list A) : nonEmpty xs = true <-> xs <> [].
Proof.
  destruct xs as [|x xs]; unfold nonEmpty; simpl; split; intros E;
    try reflexivity; try discriminate.
  now elim E.
Qed.

Lemma nonEmpty_snoc {A} (xs : list A) (x : A) : nonEmpty (xs ++ [x]) = true.
Proof. unfold nonEmpty. rewrite length_app. simpl. now rewrite Nat.add_1_r. Qed.

Lemma flag_iff (b : bool) :
  (if b then Some tt else @None unit) = Some tt <-> b = true.
Proof. destruct b; split; congruence. Qed.


Lemma ToolManager_add_nonempty `{Collaborators} (c : ToolConfig)
  (tm tm' : ToolManager.t) :
  ToolManager.add c tm = Ok tm' -> tm' <> [].
Proof.
  unfold ToolManager.add, ToolManager.has.
  destruct tm as [|o tm]; simpl.
  - intros E; inversion E; discriminate.
  - destruct (_ || _); [destruct duplicatePolicy|];
      intros E; inversion E; discriminate.
Qed.

Lemma PromptManager_add_nonempty `{Collaborators} (c : PromptConfig)
  (pm pm' : PromptManager.t) :
  PromptManager.add c pm = Ok pm' -> pm' <> [].
Proof.
  unfold PromptManager.add, PromptManager.has.
  destruct pm as [|o pm]; simpl.
  - intros E; inversion E; discriminate.
  - destruct (_ || _); [destruct duplicatePolicy|];
      intros E; inversion E; discriminate.
Qed.

Lemma ResourceManager_addResource_nonempty (c : ResourceConfig)
  (rm rm' : ResourceManager.t) :
  ResourceManager.addResource c rm = Ok rm' ->
  ResourceManager.resources rm' <> [].
Proof.
  unfold ResourceManager.addResource.
  destruct (ResourceManager.hasResource _ _); intros E; inversion E; simpl.
  destruct (ResourceManager.resources rm); discriminate.
Qed.

Lemma snoc_not_nil {A} (xs : list A) (x : A) : (xs ++ [x])%list <> [].
Proof. destruct xs; discriminate. Qed.



Section CapabilityFlags.

Context `{Collaborators}.

Variable this : BaseMCP.t.

Let caps := capabilities (registerCapabilities this).

Lemma tools_flag :
  cap_tools caps = Some tt <-> BaseMCP.toolManager this <> [].
Proof.
  unfold caps; simpl. rewrite flag_iff. unfold ToolManager.list.
  rewrite nonEmpty_map. apply nonEmpty_true.
Qed.

Lemma prompts_flag :
  cap_prompts caps = Some tt <-> BaseMCP.promptManager this <> [].
Proof.
  unfold caps; simpl. rewrite flag_iff. unfold PromptManager.list.
  rewrite nonEmpty_map. apply nonEmpty_true.
Qed.

Lemma roots_flag :
  cap_roots caps = Some tt <-> BaseMCP.rootsManager this <> [].
Proof.
  unfold caps; simpl. rewrite flag_iff. apply nonEmpty_true.
Qed.

Lemma resources_flag :
  cap_resources caps = Some tt <->
  (ResourceManager.resources (BaseMCP.resourceManager this) <> [] \/
   ResourceManager.templates (BaseMCP.resourceManager this) <> []).
Proof.
  unfold caps; simpl. rewrite flag_iff, orb_true_iff.
  unfold ResourceManager.listResources, ResourceManager.listTemplates.
  now rewrite !nonEmpty_map, !nonEmpty_true.
Qed.

End CapabilityFlags.

(** C4: the capability set computed by [registerCapabilities] has the
    tools, prompts and roots flags exactly when the tool, prompt and root
    registries are non-empty, and the resources flag exactly when the
    resource registry holds a static resource or a template; and every
    registration that succeeds leaves an instance whose next negotiation
    carries the flag of its registry (on an empty registry a registration
    always succeeds). *)
Theorem C4_flag_iff_registry_nonempty `{Collaborators} :
  forall this : BaseMCP.t,
    let caps := capabilities (registerCapabilities this) in
    let flagsAfter (m : Machine) :=
      capabilities (registerCapabilities (self m)) in
    ((cap_tools caps = Some tt <-> BaseMCP.toolManager this <> []) /\
     (cap_prompts caps = Some tt <-> BaseMCP.promptManager this <> []) /\
     (cap_roots caps = Some tt <-> BaseMCP.rootsManager this <> []) /\
     (cap_resources caps = Some tt <->
        (ResourceManager.resources (BaseMCP.resourceManager this) <> [] \/
         ResourceManager.templates (BaseMCP.resourceManager this) <> [])))
    /\
    (forall m, self m = this ->
       (forall c m', tool c m = (Ok tt, m') -> cap_tools (flagsAfter m') = Some tt) /\
       (forall c m', prompt c m = (Ok tt, m') -> cap_prompts (flagsAfter m') = Some tt) /\
       (forall c, fst (root c m) = Ok tt /\
                  cap_roots (flagsAfter (snd (root c m))) = Some tt) /\
       (forall c m', resource c m = (Ok tt, m') ->
                     cap_resources (flagsAfter m') = Some tt) /\
       (forall c, fst (template c m) = Ok tt /\
                  cap_resources (flagsAfter (snd (template c m))) = Some tt))
    /\
    (forall m, self m = this ->
       (BaseMCP.toolManager this = [] -> forall c, fst (tool c m) = Ok tt) /\
       (BaseMCP.promptManager this = [] -> forall c, fst (prompt c m) = Ok tt) /\
       (ResourceManager.resources (BaseMCP.resourceManager this) = [] ->
        forall c, fst (resource c m) = Ok tt)).
Proof.
  intros this caps flagsAfter. split; [|split].
  - repeat split; first
      [ apply tools_flag | apply prompts_flag | apply roots_flag
      | apply resources_flag ].
  - intros m <-. repeat split.
    + intros c m'. unfold tool, bind, getSelf, liftR, modifySelf, emit.
      destruct (ToolManager.add c _) as [tm|e] eqn:E; intros R; inversion R.
      apply tools_flag. simpl. eapply ToolManager_add_nonempty; eauto.
    + intros c m'. unfold prompt, bind, getSelf, liftR, modifySelf, emit.
      destruct (PromptManager.add c _) as [pm|e] eqn:E; intros R; inversion R.
      apply prompts_flag. simpl. eapply PromptManager_add_nonempty; eauto.
    + apply roots_flag. simpl. apply snoc_not_nil.
    + intros c m'. unfold resource, bind, getSelf, liftR, modifySelf, emit.
      destruct (ResourceManager.addResource _ _) as [rm|e] eqn:E;
        intros R; inversion R.
      apply resources_flag. left. simpl.
      eapply ResourceManager_addResource_nonempty; eauto.
    + apply resources_flag. right. simpl. apply snoc_not_nil.
  - intros m <-. repeat split.
    + intros E c. unfold tool, bind, getSelf, liftR. simpl.
      unfold ToolManager.add. rewrite E. reflexivity.
    + intros E c. unfold prompt, bind, getSelf, liftR. simpl.
      unfold PromptManager.add. rewrite E. reflexivity.
    + intros E c. unfold resource, bind, getSelf, liftR. simpl.
      unfold ResourceManager.addResource, ResourceManager.hasResource.
      simpl. rewrite E. reflexivity.
Qed.

Lemma C4_flag_witness :
  cap_tools (capabilities (@registerCapabilities Demo.collaborators
                             (self EasyMCP.boot))) <> Some tt /\
  cap_tools (capabilities
               (@registerCapabilities Demo.collaborators
                  (self (snd (@tool Demo.collaborators Demo.add EasyMCP.boot)))))
  = Some tt.
Proof.
  destruct (@C4_flag_iff_registry_nonempty Demo.collaborators
              (self EasyMCP.boot)) as ((F & _) & A & _).
  split.
  - intros E. apply (proj1 F) in E. now apply E.
  - exact (proj1 (A EasyMCP.boot eq_refl) Demo.add _ eq_refl).
Defined.

(** ** What [serve] does to the instance and the process *)

Lemma bindAll_app (xs ys : list RequestSchema) (srv : Server) :
  bindAll (xs ++ ys) srv = bindAll ys (bindAll xs srv).
Proof. apply fold_left_app. Qed.

Lemma bindAll_fields (ss : list RequestSchema) : forall srv,
  bindAll ss srv =
  {| srv_name := srv_name srv;
     srv_version := srv_version srv;
     srv_capabilities := srv_capabilities srv;
     srv_handlers := srv_handlers srv ++ ss;
     srv_connected := srv_connected srv;
     srv_logs := srv_logs srv |}.
Proof.
  induction ss as [|s ss IH]; intros srv.
  - destruct srv; simpl. now rewrite app_nil_r.
  - simpl. fold (bindAll ss). rewrite IH. simpl. now rewrite <- app_assoc.
Qed.

Lemma bound_nil (m : Machine) : bound [] m = m.
Proof.
  destruct m as [[n o r t p rt [srv|]] se ec ev]; unfold bound; simpl;
    now rewrite app_nil_r.
Qed.

Lemma bound_cons (s : RequestSchema) (ss : list RequestSchema) (m : Machine) :
  bound ss (bound [s] m) = bound (s :: ss) m.
Proof.
  destruct m as [[n o r t p rt [srv|]] se ec ev]; unfold bound; simpl;
    now rewrite <- app_assoc.
Qed.

Lemma bindHandler_Ok (sdk : Sdk) (s : RequestSchema) (m : Machine) :
  sdk_setRequestHandler sdk s = Ok tt ->
  bindHandler sdk s m = (Ok tt, bound [s] m).
Proof. intros E. unfold bindHandler, bind, liftR. now rewrite E. Qed.

Lemma bindHandler_Throw (sdk : Sdk) (s : RequestSchema) (m : Machine) e :
  sdk_setRequestHandler sdk s = Throw e ->
  bindHandler sdk s m = (Throw e, m).
Proof. intros E. unfold bindHandler, bind, liftR. now rewrite E. Qed.

(** Binding a list of handlers in order stops at the first call that
    throws, with the handlers before it bound. *)
Lemma forEach_bindHandler (sdk : Sdk) (ss : list RequestSchema) :
  forall m,
    match firstThrow (map (sdk_setRequestHandler sdk) ss) with
    | None => forEach ss (bindHandler sdk) m = (Ok tt, bound ss m)
    | Some e =>
        exists done rest,
          (length done < length ss)%nat /\ ss = (done ++ rest)%list /\
          forEach ss (bindHandler sdk) m = (Throw e, bound done m)
    end.
Proof.
  induction ss as [|s ss IH]; intros m.
  - simpl. unfold ret. now rewrite bound_nil.
  - simpl. destruct (sdk_setRequestHandler sdk s) as [[]|e] eqn:E.
    + specialize (IH (bound [s] m)).
      destruct (firstThrow _) as [e|].
      * destruct IH as (done & rest & L & -> & R).
        exists (s :: done), rest. split; [simpl; lia|]. split; [reflexivity|].
        unfold bind. rewrite bindHandler_Ok by exact E. rewrite R.
        now rewrite bound_cons.
      * unfold bind. rewrite bindHandler_Ok by exact E. rewrite IH.
        now rewrite bound_cons.
    + exists [], (s :: ss). split; [simpl; lia|]. split; [reflexivity|].
      unfold bind. rewrite (@bindHandler_Throw sdk s m e E).
      now rewrite bound_nil.
Qed.

(** [registerCoreHandlers] binds the schemas of [boundSchemas], in order. *)
Lemma registerCoreHandlers_forEach (sdk : Sdk) (m : Machine) :
  BaseMCP.server (self m) <> None ->
  registerCoreHandlers sdk m
  = forEach (boundSchemas (self m)) (bindHandler sdk) m.
Proof.
  intros S. unfold registerCoreHandlers, boundSchemas.
  unfold bind at 1. unfold getSelf at 1.
  destruct (BaseMCP.server (self m)) as [srv|]; [clear S|now elim S].
  destruct (nonEmpty (resources _)), (nonEmpty (tools _)),
    (nonEmpty (prompts _)), (nonEmpty (roots _));
    cbn [when app forEach]; unfold bind, ret;
    repeat match goal with
      | |- context [match bindHandler ?a ?b ?c with _ => _ end] =>
          destruct (bindHandler a b c) as [[[]|?] ?]
      end; reflexivity.
Qed.

Lemma firstThrow_app (xs ys : list (Result unit)) :
  firstThrow (xs ++ ys) =
  match firstThrow xs with
  | Some e => Some e
  | None => firstThrow ys
  end.
Proof.
  induction xs as [|[[]|e] xs IH]; simpl; auto.
Qed.

Section Serve.

Context `{Collaborators}.

Lemma serveBody_unfold (sdk : Sdk) (m : Machine) :
  serveBody sdk m =
  match sdk_newTransport sdk with
  | Throw e => (Throw e, m)
  | Ok _ =>
      match sdk_newServer sdk with
      | Throw e => (Throw e, negotiated m)
      | Ok _ =>
          match forEach (boundSchemas (self m)) (bindHandler sdk) (created m) with
          | (Ok _, m') => connect sdk m'
          | (Throw e, m') => (Throw e, m')
          end
      end
  end.
Proof.
  unfold serveBody, bind at 1, liftR at 1.
  destruct (sdk_newTransport sdk) as [[]|e]; [|reflexivity].
  unfold bind at 1, newServer, bind at 1, getSelf at 1.
  unfold bind at 1, emit at 1, bind at 1, liftR at 1.
  destruct (sdk_newServer sdk) as [[]|e]; [|reflexivity].
  unfold modifySelf at 1. cbn [self stderr exitCode events].
  fold (created m). unfold bind at 1.
  rewrite registerCoreHandlers_forEach by (simpl; discriminate).
  reflexivity.
Qed.

Lemma connect_bound (sdk : Sdk) (m : Machine) :
  sdk_connect sdk = Ok tt ->
  connect sdk (bound (boundSchemas (self m)) (created m)) = (Ok tt, serving m).
Proof.
  intros E. unfold connect, bind, liftR. rewrite E.
  unfold modifySelf, emit, serving, served, serveTrace, bound, created.
  cbn [self stderr exitCode events BaseMCP.server BaseMCP.set_server
       option_map].
  rewrite bindAll_fields. cbn. rewrite <- !app_assoc. reflexivity.
Qed.

Lemma snoc_connect_not_nil (xs : list Event) :
  xs ++ [EvConnect] <> [].
Proof. destruct xs; discriminate. Qed.

(** The [try] block either completes, leaving the instance serving, or is
    abandoned at the first call into the SDK that throws. *)
Lemma serveBody_cases (sdk : Sdk) (m : Machine) :
  match firstThrow (serveSteps sdk (self m)) with
  | None => serveBody sdk m = (Ok tt, serving m)
  | Some e => exists m', serveBody sdk m = (Throw e, m') /\ abandoned m m'
  end.
Proof.
  rewrite serveBody_unfold. unfold serveSteps. cbn [app firstThrow].
  destruct (sdk_newTransport sdk) as [[]|e].
  2:{ exists m. split; [reflexivity|]. unfold abandoned.
      repeat split; auto. exists [], (serveTrace (self m)).
      rewrite app_nil_r. repeat split; auto. discriminate. }
  destruct (sdk_newServer sdk) as [[]|e].
  2:{ exists (negotiated m). split; [reflexivity|]. unfold abandoned.
      repeat split; auto.
      exists [EvNegotiate (capabilities (registerCapabilities (self m)))],
        (map EvBind (boundSchemas (self m)) ++ [EvConnect]).
      repeat split; auto. apply snoc_connect_not_nil. }
  rewrite firstThrow_app.
  pose proof (forEach_bindHandler sdk (boundSchemas (self m)) (created m)) as B.
  destruct (firstThrow (map _ _)) as [e|].
  - destruct B as (done & rest & L & E & ->).
    exists (bound done (created m)). split; [reflexivity|]. unfold abandoned.
    repeat split; auto.
    + right. eexists. split; [reflexivity|]. now rewrite bindAll_fields.
    + exists (EvNegotiate (capabilities (registerCapabilities (self m)))
                :: map EvBind done),
        (map EvBind rest ++ [EvConnect]).
      repeat split.
      * simpl. now rewrite <- app_assoc.
      * unfold serveTrace. rewrite E, map_app. simpl.
        now rewrite <- app_assoc.
      * apply snoc_connect_not_nil.
  - rewrite B. simpl. destruct (sdk_connect sdk) as [[]|e] eqn:C.
    + now apply connect_bound.
    + exists (bound (boundSchemas (self m)) (created m)).
      split; [unfold connect, bind, liftR; now rewrite C|].
      unfold abandoned. repeat split; auto.
      * right. eexists. split; [reflexivity|]. now rewrite bindAll_fields.
      * exists (EvNegotiate (capabilities (registerCapabilities (self m)))
                  :: map EvBind (boundSchemas (self m))),
          [EvConnect].
        repeat split; try discriminate.
        simpl. now rewrite <- app_assoc.
Qed.

End Serve.

Lemma serve_unfold `{Collaborators} (sdk : Sdk) (m : Machine) :
  serve sdk m =
  match serveBody sdk (entered m) with
  | (Ok _, m') => (Ok tt, m')
  | (Throw e, m') => (Ok tt, failed e m')
  end.
Proof.
  unfold serve, bind at 1, tryCatch, entered. cbn [emit snd].
  destruct (serveBody sdk _) as [[[]|e] m']; reflexivity.
Qed.

(** C9: whatever the registries hold, the capability set computed by
    [registerCapabilities], which is the one the server that [serve] leaves
    behind was constructed with, carries the logging flag with the fixed
    list of levels [LOG_LEVELS]. *)
Theorem C9_logging_always_advertised `{Collaborators} :
  forall this : BaseMCP.t,
    cap_logging (capabilities (registerCapabilities this))
    = Some {| levels := LOG_LEVELS |} /\
    cap_logging (srv_capabilities (served this))
    = Some {| levels := LOG_LEVELS |}.
Proof. intros this. split; reflexivity. Qed.

(** C5: [serve] never lets an exception escape. When a step of its [try]
    block throws, the exception is written to stderr under the label
    "Error starting server" and the process exits with status 1, and no
    server connected by this run is left behind; otherwise the process is
    untouched and the instance is serving with every handler bound. *)
Theorem C5_serve_failure_is_fatal `{Collaborators} :
  forall (sdk : Sdk) (m : Machine),
    let m' := snd (serve sdk m) in
    fst (serve sdk m) = Ok tt /\
    match firstThrow (serveSteps sdk (self m)) with
    | Some e =>
        fst (serveBody sdk (entered m)) = Throw e /\
        stderr m' = stderr m ++ [("Error starting server"%string, e)] /\
        exitCode m' = Some 1%Z /\
        (BaseMCP.server (self m') = BaseMCP.server (self m) \/
         exists srv, BaseMCP.server (self m') = Some srv /\
                     srv_connected srv = false)
    | None =>
        fst (serveBody sdk (entered m)) = Ok tt /\
        stderr m' = stderr m /\
        exitCode m' = exitCode m /\
        BaseMCP.server (self m') = Some (served (self m))
    end.
Proof.
  intros sdk m m'. subst m'. rewrite serve_unfold.
  pose proof (serveBody_cases sdk (entered m)) as B.
  change (self (entered m)) with (self m) in B.
  destruct (firstThrow _) as [e|].
  - destruct B as (mb & -> & A1 & A2 & A3 & A4 & A5).
    cbn [fst snd failed stderr exitCode self].
    rewrite A1. repeat split; auto.
  - rewrite B. cbn. repeat split; auto.
Qed.

Lemma C5_connect_failure_witness :
  firstThrow (serveSteps Demo.sdkConnectFails (self EasyMCP.boot))
  = Some (mkError ErrorC "EPIPE") /\
  stderr (snd (@serve Demo.collaborators Demo.sdkConnectFails EasyMCP.boot))
  = [("Error starting server"%string, mkError ErrorC "EPIPE")] /\
  exitCode (snd (@serve Demo.collaborators Demo.sdkConnectFails EasyMCP.boot))
  = Some 1%Z.
Proof.
  split; [reflexivity|].
  destruct (@C5_serve_failure_is_fatal Demo.collaborators Demo.sdkConnectFails
              EasyMCP.boot) as (_ & P).
  change (firstThrow (serveSteps Demo.sdkConnectFails (self EasyMCP.boot)))
    with (Some (mkError ErrorC "EPIPE")) in P.
  destruct P as (_ & S & X & _). split; [exact S|exact X].
Defined.

(** ** Which handlers a serving instance has *)

Lemma hasHandler_In (s : RequestSchema) (srv : Server) :
  hasHandler s srv = true <-> In s (srv_handlers srv).
Proof.
  unfold hasHandler. rewrite existsb_exists. split.
  - intros (x & I & E). apply RequestSchema_eqb_eq in E. now subst.
  - intros I. exists s. split; [assumption|]. now apply RequestSchema_eqb_eq.
Qed.

Section BoundHandlers.

Context `{Collaborators}.

Variable this : BaseMCP.t.

Let rm := BaseMCP.resourceManager this.

(** The three resource handlers are bound exactly when a static resource
    is registered: templates are not looked at. *)
Lemma resource_handlers_bound (s : RequestSchema) :
  In s [ListResourcesRequestSchema; ListResourceTemplatesRequestSchema;
        ReadResourceRequestSchema] ->
  (hasHandler s (served this) = true <-> ResourceManager.resources rm <> []).
Proof.
  intros I. rewrite hasHandler_In. unfold served, boundSchemas. simpl.
  unfold ResourceManager.listResources, ToolManager.list, PromptManager.list.
  rewrite !nonEmpty_map, <- nonEmpty_true. fold rm.
  destruct (nonEmpty (ResourceManager.resources rm)),
    (nonEmpty (BaseMCP.toolManager this)),
    (nonEmpty (BaseMCP.promptManager this)),
    (nonEmpty (RootsManager.list (BaseMCP.rootsManager this)));
    simpl in *; intuition (subst; auto; try discriminate).
Qed.

Lemma tool_handlers_bound (s : RequestSchema) :
  In s [ListToolsRequestSchema; CallToolRequestSchema] ->
  (hasHandler s (served this) = true <->
   cap_tools (srv_capabilities (served this)) = Some tt).
Proof.
  intros I. rewrite hasHandler_In. unfold served, boundSchemas. simpl.
  rewrite flag_iff.
  destruct (nonEmpty (ResourceManager.listResources _)),
    (nonEmpty (ToolManager.list _)), (nonEmpty (PromptManager.list _)),
    (nonEmpty (RootsManager.list _));
    simpl in *; intuition (subst; auto; try discriminate).
Qed.

Lemma prompt_handlers_bound (s : RequestSchema) :
  In s [ListPromptsRequestSchema; GetPromptRequestSchema] ->
  (hasHandler s (served this) = true <->
   cap_prompts (srv_capabilities (served this)) = Some tt).
Proof.
  intros I. rewrite hasHandler_In. unfold served, boundSchemas. simpl.
  rewrite flag_iff.
  destruct (nonEmpty (ResourceManager.listResources _)),
    (nonEmpty (ToolManager.list _)), (nonEmpty (PromptManager.list _)),
    (nonEmpty (RootsManager.list _));
    simpl in *; intuition (subst; auto; try discriminate).
Qed.

Lemma root_handler_bound :
  hasHandler ListRootsRequestSchema (served this) = true <->
  cap_roots (srv_capabilities (served this)) = Some tt.
Proof.
  rewrite hasHandler_In. unfold served, boundSchemas. simpl.
  rewrite flag_iff.
  destruct (nonEmpty (ResourceManager.listResources _)),
    (nonEmpty (ToolManager.list _)), (nonEmpty (PromptManager.list _)),
    (nonEmpty (RootsManager.list _));
    simpl in *; intuition (subst; auto; try discriminate).
Qed.

(** With templates and no static resource the resources capability is
    advertised and none of its handlers is bound. *)
Lemma templates_only_unbound (s : RequestSchema) :
  ResourceManager.resources rm = [] ->
  ResourceManager.templates rm <> [] ->
  In s [ListResourcesRequestSchema; ListResourceTemplatesRequestSchema;
        ReadResourceRequestSchema] ->
  cap_resources (srv_capabilities (served this)) = Some tt /\
  hasHandler s (served this) = false.
Proof.
  intros E T I. split.
  - apply resources_flag. now right.
  - destruct (hasHandler s (served this)) eqn:B; [|reflexivity].
    apply (resource_handlers_bound I) in B. now elim B.
Qed.

End BoundHandlers.

(** A request is handed to the handler of its schema once the server is
    connected and has one. *)
Lemma receive_bound `{Collaborators} (r : Request) (m : Machine) (srv : Server) :
  BaseMCP.server (self m) = Some srv ->
  srv_connected srv = true ->
  hasHandler (schemaOf r) srv = true ->
  receive r m = Some (handler r m).
Proof. intros S C B. unfold receive. now rewrite S, C, B. Qed.

(** C1: on a class whose only registration is a resource template, the
    instance ends up serving with the resources capability advertised,
    while none of list-static-resources, list-resource-templates and
    read-resource has a handler, so that a read-resource request for a uri
    the template matches never reaches the instance. *)
Theorem C1_templates_only_advertised_but_unbound :
  let m := snd (@EasyMCP.new Demo.collaborators Demo.sdk Demo.templatesOnly
                  "1.0.0" None) in
  ResourceManager.matchTemplate "file://{name}.log" "file://x.log"
    = Some [("name", "x")]%string /\
  exists srv,
    BaseMCP.server (self m) = Some srv /\
    srv_connected srv = true /\
    cap_resources (srv_capabilities srv) = Some tt /\
    hasHandler ListResourcesRequestSchema srv = false /\
    hasHandler ListResourceTemplatesRequestSchema srv = false /\
    hasHandler ReadResourceRequestSchema srv = false /\
    @receive Demo.collaborators (ReadResourceRequest "file://x.log") m = None.
Proof.
  split; [reflexivity|]. eexists. repeat split; reflexivity.
Qed.

(** ** Logging before the server exists *)

(** C3, as stated, fails: on an instance on which [serve] has not run,
    [sendLog] does not return normally, it throws. *)
Lemma C3_sendLog_raises_before_serve :
  BaseMCP.server (self EasyMCP.boot) = None /\
  ~ (@sendLog Demo.collaborators info "hello" EasyMCP.boot
     = (Ok tt, EasyMCP.boot)) /\
  fst (@sendLog Demo.collaborators info "hello" EasyMCP.boot)
  = Throw (mkError ErrorC "Server not initialized. Call serve() first.").
Proof.
  split; [reflexivity|]. split; [discriminate|reflexivity].
Qed.

(** C3, amended: when [this.server] is still null, [sendLog] throws an
    Error with the message "Server not initialized. Call serve() first."
    and changes nothing: no message is sent. *)
Theorem C3_sendLog_throws_when_not_initialized `{Collaborators} :
  forall (level : LoggingLevel) (message : string) (m : Machine),
    BaseMCP.server (self m) = None ->
    sendLog level message m
    = (Throw (mkError ErrorC "Server not initialized. Call serve() first."), m).
Proof.
  intros level message m E.
  unfold sendLog, bind, getSelf. now rewrite E.
Qed.

Lemma C3_sendLog_throws_witness :
  BaseMCP.server (self EasyMCP.boot) = None /\
  @sendLog Demo.collaborators warning "disk almost full" EasyMCP.boot
  = (Throw (mkError ErrorC "Server not initialized. Call serve() first."),
     EasyMCP.boot).
Proof.
  split; [reflexivity|].
  apply (@C3_sendLog_throws_when_not_initialized Demo.collaborators).
  reflexivity.
Defined.

(** Once the server is connected the message is formatted and sent. *)
Lemma sendLog_sends `{Collaborators} (level : LoggingLevel) (message : string)
  (m : Machine) (srv : Server) :
  BaseMCP.server (self m) = Some srv ->
  srv_connected srv = true ->
  fst (sendLog level message m) = Ok tt /\
  BaseMCP.server (self (snd (sendLog level message m)))
  = Some (logged level (format level message) srv).
Proof.
  intros E C. unfold sendLog, bind, getSelf, sendLoggingMessage.
  rewrite E, C. split; reflexivity.
Qed.

(** ** The read-resource handler *)

Lemma readResourceHandlerWith_unfold
  (get : string -> ResourceManager.t -> Result ReadResourceResult)
  (uri : string) (m : Machine) :
  readResourceHandlerWith get uri m =
  match get uri (BaseMCP.resourceManager (self m)) with
  | Ok r => (Ok r, m)
  | Throw e => readResourceCatch uri e m
  end.
Proof.
  unfold readResourceHandlerWith, tryCatch, bind, getSelf, liftR, ret.
  destruct (get uri _); reflexivity.
Qed.

Lemma readResourceHandler_unfold (uri : string) (m : Machine) :
  readResourceHandler uri m =
  match ResourceManager.get uri (BaseMCP.resourceManager (self m)) with
  | Ok r => (Ok r, m)
  | Throw e => readResourceCatch uri e m
  end.
Proof. apply readResourceHandlerWith_unfold. Qed.

Lemma getFromTemplates_no_match (ts : list ResourceTemplateConfig) (uri : string) :
  (forall t, In t ts ->
             ResourceManager.matchTemplate (tpl_uriTemplate t) uri = None) ->
  ResourceManager.getFromTemplates ts uri
  = Throw (mkError ResourceNotFoundErrorC uri).
Proof.
  induction ts as [|t ts IH]; intros N; simpl.
  - reflexivity.
  - rewrite (N t) by now left. apply IH. intros t' I. apply N. now right.
Qed.

(** Whatever makes [ResourceManager.get] throw a ResourceNotFoundError, the
    handler answers with the placeholder. *)
Lemma readResourceHandler_not_found (uri : string) (m : Machine) (e : JsError) :
  ResourceManager.get uri (BaseMCP.resourceManager (self m)) = Throw e ->
  instanceof e ResourceNotFoundErrorC = true ->
  readResourceHandler uri m = (Ok (notFoundPlaceholder uri), m).
Proof.
  intros G I. rewrite readResourceHandler_unfold, G.
  unfold readResourceCatch. now rewrite I.
Qed.

(** C2: when no static resource has the requested uri and no registered
    template matches it, the read-resource handler returns normally, with
    the single plain-text content item "Resource not found" that echoes the
    uri, and leaves the instance unchanged; the request handler answers
    with that result. Nothing is assumed on the templates that are
    registered. *)
Theorem C2_unmatched_uri_gets_placeholder `{Collaborators} :
  forall (m : Machine) (uri : string),
    let rm := BaseMCP.resourceManager (self m) in
    (forall r, In r (ResourceManager.resources rm) -> res_uri r <> uri) ->
    (forall t, In t (ResourceManager.templates rm) ->
               ResourceManager.matchTemplate (tpl_uriTemplate t) uri = None) ->
    readResourceHandler uri m
    = (Ok {| contents := [ {| rc_uri := uri;
                              rc_mimeType := Some "text/plain"%string;
                              rc_text := "Resource not found" |} ] |}, m) /\
    handler (ReadResourceRequest uri) m
    = (Ok (ReadResourceResult_ (notFoundPlaceholder uri)), m).
Proof.
  intros m uri rm S T.
  assert (R : readResourceHandler uri m = (Ok (notFoundPlaceholder uri), m)).
  { apply readResourceHandler_not_found
      with (e := mkError ResourceNotFoundErrorC uri); [|reflexivity].
    unfold ResourceManager.get. fold rm.
    destruct (find _ (ResourceManager.resources rm)) as [r|] eqn:F.
    - apply find_some in F. destruct F as [I E].
      apply String.eqb_eq in E. now elim (S r I).
    - now apply getFromTemplates_no_match. }
  split; [exact R|].
  unfold handler, fmap, bind. now rewrite R.
Qed.

(** C6: whatever [this.resourceManager.get] does, when it throws anything
    that is not a ResourceNotFoundError, of whatever class, the [catch]
    clause of the read-resource handler throws a new ResourceError that
    carries the message of that exception, and the request fails with it;
    the instance is left as it was. *)
Theorem C6_other_errors_rethrown_as_ResourceError `{Collaborators} :
  forall (get : string -> ResourceManager.t -> Result ReadResourceResult)
         (m : Machine) (uri : string) (e : JsError),
    get uri (BaseMCP.resourceManager (self m)) = Throw e ->
    instanceof e ResourceNotFoundErrorC = false ->
    readResourceCatch uri e m
    = (Throw (mkError ResourceErrorC (err_message e)), m) /\
    readResourceHandlerWith get uri m
    = (Throw (mkError ResourceErrorC (err_message e)), m) /\
    (get = ResourceManager.get ->
     readResourceHandler uri m
     = (Throw (mkError ResourceErrorC (err_message e)), m) /\
     handler (ReadResourceRequest uri) m
     = (Throw (mkError ResourceErrorC (err_message e)), m)).
Proof.
  intros get m uri e G I.
  assert (C : readResourceCatch uri e m
              = (Throw (mkError ResourceErrorC (err_message e)), m)).
  { unfold readResourceCatch. now rewrite I. }
  assert (R : readResourceHandlerWith get uri m
              = (Throw (mkError ResourceErrorC (err_message e)), m)).
  { now rewrite readResourceHandlerWith_unfold, G. }
  split; [exact C|]. split; [exact R|].
  intros ->. split; [exact R|].
  unfold handler, fmap, bind, readResourceHandler. now rewrite R.
Qed.

Lemma C2_unmatched_uri_witness :
  (forall r, In r (ResourceManager.resources
                     (BaseMCP.resourceManager (self Demo.serving))) ->
             res_uri r <> "file://missing"%string) /\
  (forall t, In t (ResourceManager.templates
                     (BaseMCP.resourceManager (self Demo.serving))) ->
             ResourceManager.matchTemplate (tpl_uriTemplate t) "file://missing"
             = None) /\
  readResourceHandler "file://missing" Demo.serving
  = (Ok {| contents := [ {| rc_uri := "file://missing";
                            rc_mimeType := Some "text/plain"%string;
                            rc_text := "Resource not found" |} ] |},
     Demo.serving).
Proof.
  assert (S : forall r,
             In r (ResourceManager.resources
                     (BaseMCP.resourceManager (self Demo.serving))) ->
             res_uri r <> "file://missing"%string).
  { intros r [<-|[]]. discriminate. }
  assert (T : forall t,
             In t (ResourceManager.templates
                     (BaseMCP.resourceManager (self Demo.serving))) ->
             ResourceManager.matchTemplate (tpl_uriTemplate t) "file://missing"
             = None).
  { intros t [<-|[]]. reflexivity. }
  split; [exact S|]. split; [exact T|].
  exact (proj1 (@C2_unmatched_uri_gets_placeholder Demo.collaborators
                  Demo.serving "file://missing" S T)).
Defined.

Lemma C6_other_errors_witness :
  faultyGet "file://a.txt" (BaseMCP.resourceManager (self Demo.serving))
  = Throw (mkError TypeErrorC "boom") /\
  instanceof (mkError TypeErrorC "boom") ResourceNotFoundErrorC = false /\
  readResourceHandlerWith faultyGet "file://a.txt" Demo.serving
  = (Throw (mkError ResourceErrorC "boom"), Demo.serving).
Proof.
  split; [reflexivity|]. split; [reflexivity|].
  exact (proj1 (proj2 (@C6_other_errors_rethrown_as_ResourceError
                         Demo.collaborators faultyGet Demo.serving
                         "file://a.txt" (mkError TypeErrorC "boom")
                         eq_refl eq_refl))).
Defined.

(** ** The call-tool handler *)

Lemma callToolHandler_unfold `{Collaborators} (request : CallToolRequest)
  (m : Machine) :
  callToolHandler request m =
  match BaseMCP.server (self m) with
  | None => (Throw notInitialized, m)
  | Some srv =>
      match ToolManager.call (ct_name request) (ct_arguments request)
              {| ctx_server := srv;
                 ctx_resourceManager := BaseMCP.resourceManager (self m);
                 ctx_meta := ct_meta request |}
              (BaseMCP.toolManager (self m)) with
      | Ok result =>
          (Ok {| content := [ {| tc_type := "text"; tc_text := result |} ] |}, m)
      | Throw e => (Throw e, m)
      end
  end.
Proof.
  unfold callToolHandler, createContext, bind, getSelf, liftR, ret, throw.
  destruct (BaseMCP.server (self m)); [|reflexivity].
  destruct (ToolManager.call _ _ _ _); reflexivity.
Qed.

(** C7: whenever the call-tool handler returns normally, the tool named in
    the request is registered, its handler returned some value [v] on the
    request's arguments, and the result is the envelope whose content is
    exactly one item, of type "text", whose text is [v] coerced to text;
    the instance is left unchanged. *)
Theorem C7_call_tool_wraps_single_text_item `{Collaborators} :
  forall (request : CallToolRequest) (m m' : Machine) (result : CallToolResult),
    callToolHandler request m = (Ok result, m') ->
    exists srv config v,
      BaseMCP.server (self m) = Some srv /\
      find (fun c => String.eqb (tool_name c) (ct_name request))
           (BaseMCP.toolManager (self m)) = Some config /\
      tool_fn config (ct_arguments request)
        {| ctx_server := srv;
           ctx_resourceManager := BaseMCP.resourceManager (self m);
           ctx_meta := ct_meta request |} = Ok v /\
      result = {| content := [ {| tc_type := "text"; tc_text := coerceText v |} ] |} /\
      length (content result) = 1%nat /\
      m' = m.
Proof.
  intros request m m' result. rewrite callToolHandler_unfold.
  destruct (BaseMCP.server (self m)) as [srv|]; [|discriminate].
  unfold ToolManager.call.
  destruct (find _ (BaseMCP.toolManager (self m))) as [config|]; [|discriminate].
  destruct (missingArgument _ _); [discriminate|].
  destruct (tool_fn config _ _) as [v|e] eqn:F; [|discriminate].
  intros R. inversion R; subst. exists srv, config, v. repeat split; auto.
Qed.

Lemma C7_call_tool_witness :
  @callToolHandler Demo.collaborators addRequest Demo.serving
  = (Ok {| content := [ {| tc_type := "text"; tc_text := "3" |} ] |},
     Demo.serving) /\
  exists srv config v,
    BaseMCP.server (self Demo.serving) = Some srv /\
    find (fun c => String.eqb (tool_name c) "add")
         (BaseMCP.toolManager (self Demo.serving)) = Some config /\
    tool_fn config (ct_arguments addRequest)
      {| ctx_server := srv;
         ctx_resourceManager := BaseMCP.resourceManager (self Demo.serving);
         ctx_meta := None |} = Ok v /\
    {| content := [ {| tc_type := "text"; tc_text := "3" |} ] |}
    = {| content := [ {| tc_type := "text"; tc_text := Demo.toText v |} ] |} /\
    length [ {| tc_type := "text"; tc_text := "3" |} ] = 1%nat /\
    Demo.serving = Demo.serving.
Proof.
  split; [reflexivity|].
  exact (@C7_call_tool_wraps_single_text_item Demo.collaborators addRequest
           Demo.serving Demo.serving
           {| content := [ {| tc_type := "text"; tc_text := "3" |} ] |}
           eq_refl).
Defined.

(** ** The Tool decorator *)

(** C8: the tool configuration the decorator attaches to a method has one
    input per declared parameter, in order, with the parameter's name and
    type, and [required] is the negation of the parameter's [optional]
    flag: an input is required exactly when its parameter is not
    optional. *)
Theorem C8_required_iff_not_optional `{MagicConfig} :
  forall (config : FunctionConfig) (target : Prototype)
         (propertyKey : string) (originalMethod : Method),
  exists md tc,
    method_metadata (Tool config target propertyKey originalMethod) = Some md /\
    toolConfig md = Some tc /\
    tool_name tc = propertyKey /\
    Forall2 (fun param input =>
               input_name input = param_name param /\
               input_type input = param_type param /\
               input_required input = negb (param_optional param) /\
               (input_required input = true <-> param_optional param = false))
      (parameters (extractFunctionMetadata target propertyKey config))
      (tool_inputs tc).
Proof.
  intros config target propertyKey originalMethod.
  eexists. eexists. split; [reflexivity|]. split; [reflexivity|].
  split; [reflexivity|]. cbn [tool_inputs].
  induction (parameters _) as [|p ps IH]; simpl; constructor; auto.
  simpl. repeat split; auto; destruct (param_optional p); simpl; congruence.
Qed.

(** The decorated method of [Demo.decorated], once the class is
    constructed, is listed with one required and one optional input. *)
Example decorated_tool_registered :
  ToolManager.list
    (BaseMCP.toolManager
       (self (snd (@EasyMCP.new Demo.collaborators Demo.sdk Demo.decorated
                     "1.0.0" None))))
  = [ {| ti_name := "greet";
         ti_description := "greets";
         ti_inputs :=
           [ {| input_name := "a"; input_type := "number";
                input_description := "a a of type number";
                input_required := true |};
             {| input_name := "note"; input_type := "string";
                input_description := "a note of type string";
                input_required := false |} ] |} ].
Proof. vm_compute. reflexivity. Qed.

(** ** Construction: registrations, then [serve] *)

Lemma bind_assoc {A B C} (c : M A) (k : A -> M B) (k' : B -> M C) (m : Machine) :
  bind (bind c k) k' m = bind c (fun a => bind (k a) k') m.
Proof. unfold bind. destruct (c m) as [[a|e] m1]; reflexivity. Qed.

Lemma bind_ext {A B} (c : M A) (k k' : A -> M B) (m : Machine) :
  (forall a m1, k a m1 = k' a m1) -> bind c k m = bind c k' m.
Proof. intros E. unfold bind. destruct (c m) as [[a|e] m1]; auto. Qed.

Lemma Registers_ret : Registers (ret tt) [].
Proof. intros m. exists []. simpl. now rewrite app_nil_r. Qed.

Lemma Registers_throw (e : JsError) (rs : list (Kind * string)) :
  Registers (throw e) rs.
Proof.
  intros m. exists []. simpl. rewrite app_nil_r. split; [reflexivity|].
  now exists rs.
Qed.

Lemma Registers_bind (c1 c2 : M unit) (r1 r2 : list (Kind * string)) :
  Registers c1 r1 -> Registers c2 r2 -> Registers (c1 ;; c2) (r1 ++ r2).
Proof.
  intros R1 R2 m. destruct (R1 m) as (d1 & E1 & F1). unfold bind.
  destruct (c1 m) as [[[]|e] m1]; simpl in *.
  - subst d1. destruct (R2 m1) as (d2 & E2 & F2). exists (r1 ++ d2). split.
    + now rewrite E2, E1, map_app, app_assoc.
    + destruct (fst (c2 m1)).
      * now subst.
      * destruct F2 as (rest & ->). exists rest. now rewrite app_assoc.
  - exists d1. split; [assumption|]. destruct F1 as (rest & ->).
    exists (rest ++ r2). now rewrite app_assoc.
Qed.

Lemma Registers_modifySelf (f : BaseMCP.t -> BaseMCP.t) :
  Registers (modifySelf f) [].
Proof. intros m. exists []. simpl. now rewrite app_nil_r. Qed.

Lemma Registers_forEach {A} (f : A -> M unit) (g : A -> list (Kind * string))
  (xs : list A) :
  (forall x, Registers (f x) (g x)) ->
  Registers (forEach xs f) (flat_map g xs).
Proof.
  intros F. induction xs as [|x xs IH]; simpl.
  - apply Registers_ret.
  - now apply Registers_bind.
Qed.

Lemma Registers_liftR (r : Result unit) : Registers (liftR r) [].
Proof.
  intros m. exists []. simpl. rewrite app_nil_r. split; [reflexivity|].
  destruct r; [reflexivity|now exists []].
Qed.

Lemma Registers_optl {A} (cfg : option A) (register : A -> M unit)
  (f : A -> list (Kind * string)) :
  (forall c, Registers (register c) (f c)) ->
  Registers (EasyMCP.ifConfig cfg register) (optl f cfg).
Proof.
  intros R. destruct cfg as [c|]; simpl; [apply R|apply Registers_ret].
Qed.


Section Registrations.

Context `{Collaborators}.

Lemma Registers_tool (c : ToolConfig) :
  Registers (tool c) [(KTool, tool_name c)].
Proof.
  intros m. unfold tool, bind, getSelf, liftR.
  destruct (ToolManager.add c _) as [tm|e]; simpl.
  - now exists [(KTool, tool_name c)].
  - exists []. simpl. rewrite app_nil_r. split; [reflexivity|].
    now exists [(KTool, tool_name c)].
Qed.

Lemma Registers_prompt (c : PromptConfig) :
  Registers (prompt c) [(KPrompt, prompt_name c)].
Proof.
  intros m. unfold prompt, bind, getSelf, liftR.
  destruct (PromptManager.add c _) as [pm|e]; simpl.
  - now exists [(KPrompt, prompt_name c)].
  - exists []. simpl. rewrite app_nil_r. split; [reflexivity|].
    now exists [(KPrompt, prompt_name c)].
Qed.

Lemma Registers_resource (c : ResourceConfig) :
  Registers (resource c) [(KResource, res_uri c)].
Proof.
  intros m. unfold resource, bind, getSelf, liftR.
  destruct (ResourceManager.addResource _ _) as [rm|e]; simpl.
  - now exists [(KResource, res_uri c)].
  - exists []. simpl. rewrite app_nil_r. split; [reflexivity|].
    now exists [(KResource, res_uri c)].
Qed.

Lemma Registers_template (c : ResourceTemplateConfig) :
  Registers (template c) [(KTemplate, tpl_uriTemplate c)].
Proof. intros m. now exists [(KTemplate, tpl_uriTemplate c)]. Qed.

Lemma Registers_root (c : Root) : Registers (root c) [(KRoot, root_uri c)].
Proof. intros m. now exists [(KRoot, root_uri c)]. Qed.

Lemma Registers_register (r : Registration) :
  Registers (register r) [regKey r].
Proof.
  destruct r; simpl;
    [ apply Registers_tool | apply Registers_resource
    | apply Registers_template | apply Registers_prompt
    | apply Registers_root ].
Qed.

(** A call that is dispatched to a method of the subclass registers
    nothing. *)
Lemma Registers_thisRegister (cls : ClassDef) (r : Registration) :
  Registers (EasyMCP.thisRegister cls r) (effective cls r).
Proof.
  unfold EasyMCP.thisRegister, EasyMCP.dispatch, effective.
  destruct (EasyMCP.shadowing cls (memberName r)) as [[f|]|].
  - apply Registers_liftR.
  - apply Registers_throw.
  - apply Registers_register.
Qed.

Lemma Registers_registerMethod (cls : ClassDef) (method : string) :
  Registers (EasyMCP.registerMethod cls method) (performedOf cls method).
Proof.
  unfold EasyMCP.registerMethod, performedOf.
  destruct (lookupThis cls method) as [f|]; [|apply Registers_throw].
  destruct (method_metadata f) as [md|]; [|apply Registers_throw].
  repeat apply Registers_bind;
    apply Registers_optl; intros c; apply Registers_thisRegister.
Qed.

Lemma Registers_registrationPhase (cls : ClassDef) (version : string)
  (description : option string) :
  Registers (registrationPhase cls version description) (performed cls).
Proof.
  unfold registrationPhase, performed.
  apply (@Registers_bind _ _ [] _ (Registers_modifySelf _)).
  apply (@Registers_bind _ _ [] _ (Registers_modifySelf _)).
  apply Registers_bind.
  - destruct (class_rootConfigs cls) as [|rootConfigs|];
      try apply Registers_ret.
    apply Registers_forEach. intros c. apply Registers_thisRegister.
  - apply Registers_forEach. apply Registers_registerMethod.
Qed.

Lemma constructor_phases (sdk : Sdk) (cls : ClassDef) (version : string)
  (description : option string) (m : Machine) :
  EasyMCP.constructor sdk cls version description m
  = (registrationPhase cls version description ;; EasyMCP.thisServe sdk cls) m.
Proof.
  unfold EasyMCP.constructor, registrationPhase.
  rewrite bind_assoc. apply bind_ext; intros _ m1.
  rewrite bind_assoc. apply bind_ext; intros _ m2.
  now rewrite bind_assoc.
Qed.

End Registrations.

Section Construction.

Context `{Collaborators}.




(** [serve] up to its first [await]: a throw of either constructor has
    been caught and has ended the process; otherwise the handlers have been
    bound, up to the first binding that throws. *)
Lemma serveCalled_unfold (sdk : Sdk) (m : Machine) :
  serveCalled sdk m =
  match sdk_newTransport sdk with
  | Throw e => (Ok None, failed e (entered m))
  | Ok _ =>
      match sdk_newServer sdk with
      | Throw e => (Ok None, failed e (negotiated (entered m)))
      | Ok _ =>
          (Ok (Some (fst (forEach (boundSchemas (self m)) (bindHandler sdk)
                            (created (entered m))))),
           snd (forEach (boundSchemas (self m)) (bindHandler sdk)
                  (created (entered m))))
      end
  end.
Proof.
  unfold serveCalled, bind at 1, tryCatch. cbn [emit].
  fold (entered m).
  unfold bind at 1, liftR at 1.
  destruct (sdk_newTransport sdk) as [[]|e]; [|reflexivity].
  unfold bind at 1, newServer, bind at 1, getSelf at 1.
  unfold bind at 1, emit at 1, bind at 1, liftR at 1.
  destruct (sdk_newServer sdk) as [[]|e]; [|reflexivity].
  unfold modifySelf at 1. cbn [self stderr exitCode events].
  fold (created (entered m)). unfold bind at 1, attempt.
  rewrite registerCoreHandlers_forEach by (simpl; discriminate).
  reflexivity.
Qed.

(** Awaited or not, [serve] does the same once its promise has settled. *)
Lemma serve_split (sdk : Sdk) (m : Machine) :
  serve sdk m = (pending <- serveCalled sdk ;; settle sdk pending) m.
Proof.
  rewrite serve_unfold, serveBody_unfold. unfold bind at 1.
  rewrite serveCalled_unfold.
  change (self (entered m)) with (self m).
  destruct (sdk_newTransport sdk) as [[]|e]; [|reflexivity].
  destruct (sdk_newServer sdk) as [[]|e]; [|reflexivity].
  destruct (forEach _ _ _) as [[[]|e] m1]; cbn [fst snd];
    unfold settle, serveResumed.
  - unfold tryCatch, bind, liftR.
    destruct (connect sdk m1) as [[[]|e] m2]; reflexivity.
  - reflexivity.
Qed.

(** [new], by what the registrations do and by what [this.serve] is. *)
Lemma new_cases (sdk : Sdk) (cls : ClassDef) (version : string)
  (description : option string) :
  EasyMCP.new sdk cls version description =
  match registrationPhase cls version description EasyMCP.boot with
  | (Ok _, m1) =>
      match EasyMCP.shadowing cls "serve" with
      | None => serve sdk m1
      | Some (PFunction f) => (method_member f CallServe, m1)
      | Some PData => (Throw (EasyMCP.notAFunction "serve"), m1)
      end
  | (Throw e, m1) => (Throw e, m1)
  end.
Proof.
  unfold EasyMCP.new. unfold bind at 1. rewrite constructor_phases.
  unfold bind at 1.
  destruct (registrationPhase _ _ _ _) as [[[]|e] m1]; [|reflexivity].
  unfold EasyMCP.thisServe, EasyMCP.dispatch.
  destruct (EasyMCP.shadowing cls "serve") as [[f|]|].
  - unfold bind, liftR, ret.
    destruct (method_member f CallServe) as [[]|e]; reflexivity.
  - reflexivity.
  - rewrite serve_split. reflexivity.
Qed.

End Construction.

(** *** Classes that shadow no member of [BaseMCP] *)






(** *** The filter of the constructor and the decorated methods *)

Lemma includes_In (xs : list string) (x : string) :
  includes xs x = true <-> In x xs.
Proof.
  unfold includes. rewrite existsb_exists. split.
  - intros (y & I & E). apply String.eqb_eq in E. now subst.
  - intros I. exists x. split; [assumption|apply String.eqb_refl].
Qed.



Lemma filter_filter_andb {A} (p q : A -> bool) (xs : list A) :
  filter q (filter p xs) = filter (fun x => p x && q x) xs.
Proof.
  induction xs as [|x xs IH]; simpl; [reflexivity|].
  destruct (p x); simpl; [|exact IH].
  destruct (q x); simpl; now rewrite IH.
Qed.




(** *** When the registrations succeed *)









Section Success.

Context `{Collaborators}.








Lemma bind_modifySelf {B} (g : BaseMCP.t -> BaseMCP.t) (k : unit -> M B)
  (m : Machine) :
  bind (modifySelf g) k m
  = k tt {| self := g (self m); stderr := stderr m;
            exitCode := exitCode m; events := events m |}.
Proof. reflexivity. Qed.


End Success.

(** *** What the registrations leave alone *)

Lemma Preserves_bind {X A B} (f : Machine -> X) (c : M A) (k : A -> M B) :
  Preserves f c -> (forall a, Preserves f (k a)) -> Preserves f (bind c k).
Proof.
  intros Pc Pk m. specialize (Pc m). unfold bind.
  destruct (c m) as [[a|e] m1]; simpl in *.
  - now rewrite Pk.
  - assumption.
Qed.

Lemma Preserves_ret {X A} (f : Machine -> X) (a : A) : Preserves f (ret a).
Proof. intros m. reflexivity. Qed.

Lemma Preserves_throw {X A} (f : Machine -> X) (e : JsError) :
  Preserves f (@throw A e).
Proof. intros m. reflexivity. Qed.

Lemma Preserves_liftR {X A} (f : Machine -> X) (r : Result A) :
  Preserves f (liftR r).
Proof. intros m. reflexivity. Qed.

Lemma Preserves_getSelf {X} (f : Machine -> X) : Preserves f getSelf.
Proof. intros m. reflexivity. Qed.

Lemma Preserves_forEach {X A} (f : Machine -> X) (g : A -> M unit)
  (xs : list A) :
  (forall x, Preserves f (g x)) -> Preserves f (forEach xs g).
Proof.
  intros P. induction xs as [|x xs IH]; simpl.
  - apply Preserves_ret.
  - apply Preserves_bind; auto.
Qed.

Lemma Preserves_ifConfig {X A} (f : Machine -> X) (cfg : option A)
  (g : A -> M unit) :
  (forall c, Preserves f (g c)) -> Preserves f (EasyMCP.ifConfig cfg g).
Proof. intros P. destruct cfg; simpl; [apply P|apply Preserves_ret]. Qed.

Ltac preserves :=
  repeat first
    [ apply Preserves_bind; [|intros ?]
    | apply Preserves_getSelf
    | apply Preserves_liftR
    | apply Preserves_ret
    | apply Preserves_throw
    | (intros ?; reflexivity) ].

Lemma forEach_throws {A} (f : A -> M unit) (x : A) (xs : list A) :
  In x xs ->
  (forall m, exists e, fst (f x m) = Throw e) ->
  forall m, exists e, fst (forEach xs f m) = Throw e.
Proof.
  intros I T. induction xs as [|y ys IH]; [now elim I|]. intros m.
  simpl. unfold bind. destruct I as [->|I].
  - destruct (T m) as (e & E). destruct (f x m) as [[[]|e'] m1]; simpl in *.
    + discriminate.
    + now exists e'.
  - destruct (f y m) as [[[]|e'] m1]; simpl.
    + now apply IH.
    + now exists e'.
Qed.

Section Frame.

Context `{Collaborators}.

Lemma tool_shell (c : ToolConfig) : Preserves shell (tool c).
Proof. unfold tool. preserves. Qed.

Lemma prompt_shell (c : PromptConfig) : Preserves shell (prompt c).
Proof. unfold prompt. preserves. Qed.

Lemma resource_shell (c : ResourceConfig) : Preserves shell (resource c).
Proof. unfold resource. preserves. Qed.

Lemma template_shell (c : ResourceTemplateConfig) : Preserves shell (template c).
Proof. unfold template. preserves. Qed.

Lemma root_shell (c : Root) : Preserves shell (root c).
Proof. unfold root. preserves. Qed.

Lemma register_shell (r : Registration) : Preserves shell (register r).
Proof.
  destruct r; simpl;
    [ apply tool_shell | apply resource_shell | apply template_shell
    | apply prompt_shell | apply root_shell ].
Qed.

Lemma thisRegister_shell (cls : ClassDef) (r : Registration) :
  Preserves shell (EasyMCP.thisRegister cls r).
Proof.
  unfold EasyMCP.thisRegister, EasyMCP.dispatch.
  destruct (EasyMCP.shadowing cls (memberName r)) as [[f|]|];
    [ apply Preserves_liftR | apply Preserves_throw | apply register_shell ].
Qed.

Lemma registerMethod_shell (cls : ClassDef) (method : string) :
  Preserves shell (EasyMCP.registerMethod cls method).
Proof.
  unfold EasyMCP.registerMethod.
  destruct (lookupThis cls method) as [f|]; [|apply Preserves_throw].
  destruct (method_metadata f) as [md|]; [|apply Preserves_throw].
  repeat (apply Preserves_bind; [|intros ?]);
    apply Preserves_ifConfig; intros c; apply thisRegister_shell.
Qed.

(** The registrations of the constructor leave the instance named after
    the class, with the options it was given, no server, and the process
    untouched. *)
Lemma registrationPhase_shell (cls : ClassDef) (version : string)
  (description : option string) (m : Machine) :
  shell (snd (registrationPhase cls version description m))
  = (class_name cls, {| version := version; description := description |},
     None, stderr m, exitCode m).
Proof.
  unfold registrationPhase. rewrite !bind_modifySelf.
  match goal with
  | |- shell (snd (?c ?m0)) = _ =>
      assert (P : Preserves shell c); [|rewrite P; reflexivity]
  end.
  apply Preserves_bind.
  - destruct (class_rootConfigs cls); try apply Preserves_ret.
    apply Preserves_forEach. intros c. apply thisRegister_shell.
  - intros _. apply Preserves_forEach. apply registerMethod_shell.
Qed.

Lemma registrationPhase_throws (cls : ClassDef) (version : string)
  (description : option string) (method : string) (f : Method) :
  In method (childMethods cls) ->
  lookupThis cls method = PFunction f ->
  method_metadata f = None ->
  forall m, exists e,
    fst (registrationPhase cls version description m) = Throw e.
Proof.
  intros I L F m. unfold registrationPhase. rewrite !bind_modifySelf.
  unfold bind at 1.
  match goal with
  | |- context [match ?c ?m0 with _ => _ end] =>
      destruct (c m0) as [[[]|e] m1]
  end.
  - apply forEach_throws with (x := method); [exact I|].
    intros m2. exists undefinedProperty.
    unfold EasyMCP.registerMethod. now rewrite L, F.
  - now exists e.
Qed.

End Frame.

(** *** The instance when the constructor returns *)

Section AtReturn.

Context `{Collaborators}.







End AtReturn.

Section Outcome.

Context `{Collaborators}.




End Outcome.





(** A method of the subclass that is named [serve] is the one
    [this.serve] finds: the tool is registered, and no server is ever
    created. *)
Example shadowed_serve_never_serves :
  events (snd (@EasyMCP.new Demo.collaborators Demo.sdk Fixtures.shadowsServe
                 "1.0.0" None))
  = [ EvRegister KTool "add"; EvRegister KTool "serve" ] /\
  BaseMCP.server
    (self (snd (@EasyMCP.new Demo.collaborators Demo.sdk Fixtures.shadowsServe
                  "1.0.0" None))) = None.
Proof. split; vm_compute; reflexivity. Qed.

(** When binding a handler fails, the constructor has already returned by
    the time the failure is caught. *)
Example bind_failure_after_return :
  exitCode (snd (@EasyMCP.constructor Demo.collaborators Fixtures.sdkBindFails
                   Demo.full "1.0.0" None EasyMCP.boot)) = None /\
  exitCode (snd (@EasyMCP.new Demo.collaborators Fixtures.sdkBindFails
                   Demo.full "1.0.0" None)) = Some 1%Z /\
  exitCode (snd (@EasyMCP.constructor Demo.collaborators
                   Fixtures.sdkServerFails Demo.full "1.0.0" None
                   EasyMCP.boot)) = Some 1%Z.
Proof. repeat (split; [vm_compute; reflexivity|]). vm_compute. reflexivity. Qed.

(** The trace of constructing [Demo.full] with an SDK that never throws. *)
Example full_trace :
  events Demo.serving =
  [ EvRegister KRoot "file:///home";
    EvRegister KTool "add";
    EvRegister KResource "file://a.txt";
    EvRegister KTemplate "file://{name}.log";
    EvServe;
    EvNegotiate {| cap_resources := Some tt;
                   cap_logging := Some {| levels := @LOG_LEVELS Demo.collaborators |};
                   cap_tools := Some tt;
                   cap_prompts := None;
                   cap_roots := Some tt |};
    EvBind ListResourcesRequestSchema;
    EvBind ListResourceTemplatesRequestSchema;
    EvBind ReadResourceRequestSchema;
    EvBind ListToolsRequestSchema;
    EvBind CallToolRequestSchema;
    EvBind ListRootsRequestSchema;
    EvConnect ].
Proof. reflexivity. Qed.

Example serving_is_constructed :
  Demo.serving
  = snd (@EasyMCP.new Demo.collaborators Demo.sdk Demo.full "1.0.0" None).
Proof. vm_compute. reflexivity. Qed.

(** ** Further properties of the request handlers *)



(** X2: the call-tool handler has no [catch]: an exception it throws is
    either the "Server not initialized" guard of [createContext], raised
    before the tool manager is consulted, or exactly the exception
    [ToolManager.call] threw, unchanged; the instance is left as it was. *)
Theorem call_tool_errors_propagate `{Collaborators} :
  forall (request : CallToolRequest) (m : Machine) (e : JsError),
    fst (callToolHandler request m) = Throw e ->
    snd (callToolHandler request m) = m /\
    ((BaseMCP.server (self m) = None /\
      e = mkError ErrorC "Server not initialized. Call serve() first.") \/
     exists srv,
       BaseMCP.server (self m) = Some srv /\
       ToolManager.call (ct_name request) (ct_arguments request)
         {| ctx_server := srv;
            ctx_resourceManager := BaseMCP.resourceManager (self m);
            ctx_meta := ct_meta request |}
         (BaseMCP.toolManager (self m)) = Throw e).
Proof.
  intros request m e. rewrite callToolHandler_unfold.
  destruct (BaseMCP.server (self m)) as [srv|].
  - destruct (ToolManager.call _ _ _ _) as [text|e0] eqn:C; [discriminate|].
    simpl. intros E. inversion E; subst. split; [reflexivity|].
    right. exists srv. auto.
  - simpl. intros E. inversion E; subst. split; [reflexivity|]. now left.
Qed.

Lemma call_tool_errors_propagate_witness :
  fst (@callToolHandler Demo.collaborators addRequest EasyMCP.boot)
  = Throw (mkError ErrorC "Server not initialized. Call serve() first.") /\
  snd (@callToolHandler Demo.collaborators addRequest EasyMCP.boot)
  = EasyMCP.boot.
Proof.
  split; [reflexivity|].
  exact (proj1 (@call_tool_errors_propagate Demo.collaborators addRequest
                  EasyMCP.boot
                  (mkError ErrorC "Server not initialized. Call serve() first.")
                  eq_refl)).
Defined.

Lemma getPromptHandler_unfold `{Collaborators} (name : string)
  (arguments : Args) (m : Machine) :
  getPromptHandler name arguments m =
  match PromptManager.call name arguments (BaseMCP.promptManager (self m)) with
  | Ok result =>
      (Ok {| messages :=
               [ {| pm_role := "user";
                    pm_content := {| tc_type := "text"; tc_text := result |} |} ] |},
       m)
  | Throw e => (Throw e, m)
  end.
Proof.
  unfold getPromptHandler, bind, getSelf, liftR, ret.
  destruct (PromptManager.call _ _ _); reflexivity.
Qed.

(** X3: whenever the get-prompt handler returns normally, its result is
    exactly one message, of role "user", whose content is of type "text"
    and carries the string [PromptManager.call] returned; no server is
    needed for it and the instance is left as it was. An exception of
    [PromptManager.call] escapes unchanged. *)
Theorem get_prompt_wraps_single_user_message `{Collaborators} :
  forall (name : string) (arguments : Args) (m m' : Machine)
         (outcome : Result GetPromptResult),
    getPromptHandler name arguments m = (outcome, m') ->
    m' = m /\
    match outcome with
    | Ok result =>
        exists text,
          PromptManager.call name arguments (BaseMCP.promptManager (self m))
          = Ok text /\
          result = {| messages :=
                        [ {| pm_role := "user";
                             pm_content := {| tc_type := "text";
                                              tc_text := text |} |} ] |}
    | Throw e =>
        PromptManager.call name arguments (BaseMCP.promptManager (self m))
        = Throw e
    end.
Proof.
  intros name arguments m m' outcome. rewrite getPromptHandler_unfold.
  destruct (PromptManager.call _ _ _) as [text|e];
    intros E; inversion E; subst; split; auto.
  exists text. auto.
Qed.

Lemma get_prompt_wraps_witness :
  @getPromptHandler Demo.collaborators "greeting" Fixtures.greetRequest
    Fixtures.promptServing
  = (Ok {| messages :=
             [ {| pm_role := "user";
                  pm_content := {| tc_type := "text";
                                   tc_text := "Hello, Ada" |} |} ] |},
     Fixtures.promptServing) /\
  Fixtures.promptServing = Fixtures.promptServing.
Proof.
  split; [reflexivity|].
  exact (proj1 (@get_prompt_wraps_single_user_message Demo.collaborators
                  "greeting" Fixtures.greetRequest Fixtures.promptServing
                  Fixtures.promptServing _ eq_refl)).
Defined.

(** ** Further properties of [serve] *)

Lemma Demo_sdk_never_throws : NeverThrows Demo.sdk.
Proof. repeat split. Qed.

Lemma firstThrow_all_Ok (f : RequestSchema -> Result unit)
  (ss : list RequestSchema) :
  (forall s, f s = Ok tt) -> firstThrow (map f ss) = None.
Proof.
  intros A. induction ss as [|s ss IH]; simpl; [reflexivity|].
  now rewrite A.
Qed.

Lemma NeverThrows_firstThrow (sdk : Sdk) (this : BaseMCP.t) :
  NeverThrows sdk -> firstThrow (serveSteps sdk this) = None.
Proof.
  intros (T & S & B & C). unfold serveSteps. simpl. rewrite T, S.
  rewrite firstThrow_app, (firstThrow_all_Ok _ _ B). simpl. now rewrite C.
Qed.

(** When no call into the SDK throws, [serve] returns with the instance
    serving. *)
Lemma serve_success `{Collaborators} (sdk : Sdk) (m : Machine) :
  NeverThrows sdk -> serve sdk m = (Ok tt, serving (entered m)).
Proof.
  intros N. rewrite serve_unfold.
  pose proof (serveBody_cases sdk (entered m)) as B.
  rewrite (NeverThrows_firstThrow (self (entered m)) N) in B.
  now rewrite B.
Qed.

Lemma server_after_serve `{Collaborators} (sdk : Sdk) (m : Machine) :
  NeverThrows sdk ->
  BaseMCP.server (self (snd (serve sdk m))) = Some (served (self m)).
Proof. intros N. now rewrite (serve_success m N). Qed.

Lemma boundSchemas_NoDup (this : BaseMCP.t) : NoDup (boundSchemas this).
Proof.
  unfold boundSchemas.
  destruct (nonEmpty (resources _)), (nonEmpty (tools _)),
    (nonEmpty (prompts _)), (nonEmpty (roots _)); simpl;
    repeat constructor; simpl; intuition discriminate.
Qed.

Lemma hasHandler_served `{Collaborators} (this : BaseMCP.t) (s : RequestSchema) :
  hasHandler s (served this) =
  match s with
  | ListResourcesRequestSchema | ListResourceTemplatesRequestSchema
  | ReadResourceRequestSchema => nonEmpty (resources (listCapabilities this))
  | ListToolsRequestSchema | CallToolRequestSchema =>
      nonEmpty (tools (listCapabilities this))
  | ListPromptsRequestSchema | GetPromptRequestSchema =>
      nonEmpty (prompts (listCapabilities this))
  | ListRootsRequestSchema => nonEmpty (roots (listCapabilities this))
  end.
Proof.
  unfold hasHandler, served, boundSchemas. cbn [srv_handlers].
  destruct (nonEmpty (resources _)), (nonEmpty (tools _)),
    (nonEmpty (prompts _)), (nonEmpty (roots _)), s; reflexivity.
Qed.

(** X4: in the server a successful [serve] leaves behind no schema has two
    handlers, and handlers come in groups: list-tools is bound exactly when
    call-tool is, list-prompts exactly when get-prompt is, and the three
    resource handlers are bound together. *)
Theorem serve_binds_handlers_in_groups `{Collaborators} :
  forall (sdk : Sdk) (m : Machine),
    NeverThrows sdk ->
    exists srv,
      BaseMCP.server (self (snd (serve sdk m))) = Some srv /\
      srv_connected srv = true /\
      NoDup (srv_handlers srv) /\
      hasHandler ListToolsRequestSchema srv
      = hasHandler CallToolRequestSchema srv /\
      hasHandler ListPromptsRequestSchema srv
      = hasHandler GetPromptRequestSchema srv /\
      hasHandler ListResourcesRequestSchema srv
      = hasHandler ReadResourceRequestSchema srv /\
      hasHandler ListResourceTemplatesRequestSchema srv
      = hasHandler ReadResourceRequestSchema srv.
Proof.
  intros sdk m N. exists (served (self m)).
  split; [now apply server_after_serve|]. split; [reflexivity|].
  split; [apply boundSchemas_NoDup|].
  now rewrite !hasHandler_served.
Qed.

Lemma serve_binds_handlers_in_groups_witness :
  NeverThrows Demo.sdk /\
  exists srv,
    BaseMCP.server
      (self (snd (@serve Demo.collaborators Demo.sdk withBrokenResource)))
    = Some srv /\
    srv_connected srv = true /\
    NoDup (srv_handlers srv) /\
    hasHandler ListToolsRequestSchema srv
    = hasHandler CallToolRequestSchema srv /\
    hasHandler ListPromptsRequestSchema srv
    = hasHandler GetPromptRequestSchema srv /\
    hasHandler ListResourcesRequestSchema srv
    = hasHandler ReadResourceRequestSchema srv /\
    hasHandler ListResourceTemplatesRequestSchema srv
    = hasHandler ReadResourceRequestSchema srv.
Proof.
  split; [exact Demo_sdk_never_throws|].
  exact (@serve_binds_handlers_in_groups Demo.collaborators Demo.sdk
           withBrokenResource Demo_sdk_never_throws).
Defined.

Lemma receive_served `{Collaborators} (sdk : Sdk) (m : Machine) (r : Request) :
  NeverThrows sdk ->
  receive r (snd (serve sdk m)) =
  if hasHandler (schemaOf r) (served (self m))
  then Some (handler r (snd (serve sdk m))) else None.
Proof.
  intros N. unfold receive. rewrite (server_after_serve m N). reflexivity.
Qed.

(** X5: after a successful [serve], which requests are handed to a handler
    is decided by the four lists [registerCoreHandlers] looked at: every
    resource request, list-resource-templates and read-resource included,
    is received exactly when a static resource was listed (the templates
    are not looked at), tool requests exactly when a tool was listed,
    prompt requests exactly when a prompt was listed, and list-roots
    exactly when a root was listed. *)
Theorem requests_received_iff_listed `{Collaborators} :
  forall (sdk : Sdk) (m : Machine),
    NeverThrows sdk ->
    let listed := listCapabilities (self m) in
    let m' := snd (serve sdk m) in
    (forall r, In r [ListResourcesRequest; ListResourceTemplatesRequest] ->
               (receive r m' <> None <-> resources listed <> [])) /\
    (forall uri, receive (ReadResourceRequest uri) m' <> None <->
                 resources listed <> []) /\
    (receive ListToolsRequest m' <> None <-> tools listed <> []) /\
    (forall q, receive (CallToolRequest_ q) m' <> None <->
               tools listed <> []) /\
    (receive ListPromptsRequest m' <> None <-> prompts listed <> []) /\
    (forall name arguments,
        receive (GetPromptRequest name arguments) m' <> None <->
        prompts listed <> []) /\
    (receive ListRootsRequest m' <> None <-> roots listed <> []).
Proof.
  intros sdk m N listed m'. subst listed m'.
  assert (R : forall r,
             receive r (snd (serve sdk m)) <> None <->
             hasHandler (schemaOf r) (served (self m)) = true).
  { intros r. rewrite (receive_served m r N).
    destruct (hasHandler _ _); split; congruence. }
  split; [intros r [<-|[<-|[]]]; rewrite R, hasHandler_served;
          apply nonEmpty_true|].
  repeat (split; [intros; rewrite R, hasHandler_served; apply nonEmpty_true|]).
  rewrite R, hasHandler_served. apply nonEmpty_true.
Qed.

Lemma requests_received_iff_listed_witness :
  NeverThrows Demo.sdk /\
  @receive Demo.collaborators (ReadResourceRequest "file://broken")
    (snd (@serve Demo.collaborators Demo.sdk withBrokenResource)) <> None /\
  ~ (@receive Demo.collaborators ListToolsRequest
       (snd (@serve Demo.collaborators Demo.sdk withBrokenResource)) <> None).
Proof.
  split; [exact Demo_sdk_never_throws|].
  destruct (@requests_received_iff_listed Demo.collaborators Demo.sdk
              withBrokenResource Demo_sdk_never_throws)
    as (_ & R & T & _).
  split.
  - apply R. discriminate.
  - intros A. apply T in A. now apply A.
Defined.

(** X6: when the five lists of [listCapabilities] are empty, a successful
    [serve] leaves a connected server that advertises the logging flag and
    nothing else and has no handler at all, so that no request of any kind
    is handed to this code. *)
Theorem serve_without_registrations `{Collaborators} :
  forall (sdk : Sdk) (m : Machine),
    NeverThrows sdk ->
    listCapabilities (self m)
    = {| resources := []; resourceTemplates := []; tools := [];
         prompts := []; roots := [] |} ->
    exists srv,
      BaseMCP.server (self (snd (serve sdk m))) = Some srv /\
      srv_connected srv = true /\
      srv_capabilities srv = loggingOnly /\
      srv_handlers srv = [] /\
      forall r, receive r (snd (serve sdk m)) = None.
Proof.
  intros sdk m N E. exists (served (self m)).
  split; [now apply server_after_serve|]. split; [reflexivity|].
  pose proof (f_equal resources E) as E1.
  pose proof (f_equal resourceTemplates E) as E2.
  pose proof (f_equal tools E) as E3.
  pose proof (f_equal prompts E) as E4.
  pose proof (f_equal roots E) as E5.
  cbn [listCapabilities resources resourceTemplates tools prompts roots]
    in E1, E2, E3, E4, E5.
  split; [|split].
  - unfold served, registerCapabilities, loggingOnly. cbn [srv_capabilities capabilities].
    now rewrite E1, E2, E3, E4, E5.
  - unfold served, boundSchemas, listCapabilities.
    cbn [srv_handlers resources tools prompts roots].
    now rewrite E1, E3, E4, E5.
  - intros r. rewrite (receive_served m r N), hasHandler_served.
    unfold listCapabilities. cbn [resources tools prompts roots].
    rewrite E1, E3, E4, E5. now destruct r.
Qed.

Lemma serve_without_registrations_witness :
  NeverThrows Demo.sdk /\
  listCapabilities (self EasyMCP.boot)
  = {| resources := []; resourceTemplates := []; tools := [];
       prompts := []; roots := [] |} /\
  exists srv,
    BaseMCP.server
      (self (snd (@serve Demo.collaborators Demo.sdk EasyMCP.boot)))
    = Some srv /\
    srv_connected srv = true /\
    srv_capabilities srv = @loggingOnly Demo.collaborators /\
    srv_handlers srv = [] /\
    forall r, @receive Demo.collaborators r
                (snd (@serve Demo.collaborators Demo.sdk EasyMCP.boot)) = None.
Proof.
  split; [exact Demo_sdk_never_throws|]. split; [reflexivity|].
  exact (@serve_without_registrations Demo.collaborators Demo.sdk EasyMCP.boot
           Demo_sdk_never_throws eq_refl).
Defined.

(** X7: when the transport or the server cannot be constructed, [serve]
    leaves [this.server] as it was (null if it was null), binds and
    connects nothing, logs the exception and exits with status 1. *)
Theorem serve_construction_failure_keeps_server `{Collaborators} :
  forall (sdk : Sdk) (m : Machine) (e : JsError),
    sdk_newTransport sdk = Throw e \/
    (sdk_newTransport sdk = Ok tt /\ sdk_newServer sdk = Throw e) ->
    let m' := snd (serve sdk m) in
    self m' = self m /\
    stderr m' = stderr m ++ [("Error starting server"%string, e)] /\
    exitCode m' = Some 1%Z /\
    forall s, ~ In (EvBind s) (skipn (length (events m)) (events m')) /\
              ~ In EvConnect (skipn (length (events m)) (events m')).
Proof.
  intros sdk m e F m'. subst m'. rewrite serve_unfold, serveBody_unfold.
  destruct F as [T|[T S]]; rewrite T; [|rewrite S];
    cbn [fst snd failed entered emit negotiated self stderr exitCode events];
    (split; [reflexivity|]); (split; [reflexivity|]); (split; [reflexivity|]);
    intros s; rewrite <- ?app_assoc, skipn_app, skipn_all, Nat.sub_diag;
    simpl; intuition discriminate.
Qed.

Lemma serve_construction_failure_witness :
  (sdk_newTransport Fixtures.sdkServerFails
   = Throw (mkError ErrorC "bad capabilities") \/
   (sdk_newTransport Fixtures.sdkServerFails = Ok tt /\
    sdk_newServer Fixtures.sdkServerFails
    = Throw (mkError ErrorC "bad capabilities"))) /\
  self (snd (@serve Demo.collaborators Fixtures.sdkServerFails
               withBrokenResource))
  = self withBrokenResource /\
  exitCode (snd (@serve Demo.collaborators Fixtures.sdkServerFails
                   withBrokenResource))
  = Some 1%Z.
Proof.
  assert (F : sdk_newTransport Fixtures.sdkServerFails
              = Throw (mkError ErrorC "bad capabilities") \/
              (sdk_newTransport Fixtures.sdkServerFails = Ok tt /\
               sdk_newServer Fixtures.sdkServerFails
               = Throw (mkError ErrorC "bad capabilities"))).
  { right. split; reflexivity. }
  split; [exact F|].
  destruct (@serve_construction_failure_keeps_server Demo.collaborators
              Fixtures.sdkServerFails withBrokenResource _ F)
    as (S & _ & X & _).
  split; [exact S|exact X].
Defined.

(** X8: once [serve] has succeeded, [sendLog] returns normally and hands
    the server exactly one notification, with the level it was given and
    the message formatted by [LogFormatter.format]; capabilities, handlers
    and the connection are untouched. *)
Theorem sendLog_after_serve `{Collaborators} :
  forall (sdk : Sdk) (m : Machine) (level : LoggingLevel) (message : string),
    NeverThrows sdk ->
    let m' := snd (serve sdk m) in
    fst (sendLog level message m') = Ok tt /\
    BaseMCP.server (self (snd (sendLog level message m')))
    = Some {| srv_name := BaseMCP.name (self m);
              srv_version := version (BaseMCP.opts (self m));
              srv_capabilities := capabilities (registerCapabilities (self m));
              srv_handlers := boundSchemas (self m);
              srv_connected := true;
              srv_logs := [(level, format level message)] |}.
Proof.
  intros sdk m level message N m'. subst m'.
  exact (sendLog_sends level message _ (server_after_serve m N) eq_refl).
Qed.

Lemma sendLog_after_serve_witness :
  NeverThrows Demo.sdk /\
  fst (@sendLog Demo.collaborators warning "disk almost full"
         (snd (@serve Demo.collaborators Demo.sdk EasyMCP.boot))) = Ok tt /\
  sentLogs (snd (@sendLog Demo.collaborators warning "disk almost full"
                   (snd (@serve Demo.collaborators Demo.sdk EasyMCP.boot))))
  = [(warning, "[warning] disk almost full"%string)].
Proof.
  split; [exact Demo_sdk_never_throws|].
  destruct (@sendLog_after_serve Demo.collaborators Demo.sdk EasyMCP.boot
              warning "disk almost full" Demo_sdk_never_throws) as (R & S).
  split; [exact R|]. unfold sentLogs. rewrite S. reflexivity.
Defined.

Lemma sendLog_Some `{Collaborators} (level : LoggingLevel) (message : string)
  (m : Machine) (srv : Server) :
  BaseMCP.server (self m) = Some srv ->
  srv_connected srv = true ->
  sendLog level message m =
  (Ok tt,
   {| self := BaseMCP.set_server
                (Some (logged level (format level message) srv)) (self m);
      stderr := stderr m; exitCode := exitCode m; events := events m |}).
Proof.
  intros E C. unfold sendLog, bind, getSelf, sendLoggingMessage.
  now rewrite E, C.
Qed.

Lemma sendLog_unconnected `{Collaborators} (level : LoggingLevel)
  (message : string) (m : Machine) (srv : Server) :
  BaseMCP.server (self m) = Some srv ->
  srv_connected srv = false ->
  sendLog level message m =
  (Ok tt,
   {| self := self m; stderr := stderr m; exitCode := Some 1%Z;
      events := events m |}).
Proof.
  intros E C. unfold sendLog, bind, getSelf, sendLoggingMessage.
  now rewrite E, C.
Qed.

(** X9: on an instance whose server is connected, any sequence of
    [sendLog] calls returns normally and appends one notification per call,
    in call order, each with its own level and formatted message; nothing
    else of the server, the registries or the process changes. On a server
    that exists but is not connected, as between the creation of the server
    and the end of the handshake, a call returns normally too, but sends
    nothing, and the rejection of the promise it drops ends the process
    with status 1. *)
Theorem sendLog_appends_in_order `{Collaborators} :
  forall (msgs : list (LoggingLevel * string)) (m : Machine) (srv : Server),
    BaseMCP.server (self m) = Some srv ->
    let run := forEach msgs (fun lm => sendLog (fst lm) (snd lm)) m in
    fst run = Ok tt /\
    core (snd run) = core m /\
    stderr (snd run) = stderr m /\
    if srv_connected srv then
      BaseMCP.server (self (snd run))
      = Some {| srv_name := srv_name srv;
                srv_version := srv_version srv;
                srv_capabilities := srv_capabilities srv;
                srv_handlers := srv_handlers srv;
                srv_connected := true;
                srv_logs := srv_logs srv
                            ++ map (fun lm => (fst lm, format (fst lm) (snd lm)))
                                   msgs |} /\
      exitCode (snd run) = exitCode m
    else
      BaseMCP.server (self (snd run)) = Some srv /\
      (msgs <> [] -> exitCode (snd run) = Some 1%Z).
Proof.
  induction msgs as [|[level message] msgs IH]; intros m srv S run; subst run.
  - simpl. rewrite S.
    destruct srv as [n v c h [|] l]; cbn [srv_connected];
      repeat split; auto; try (now rewrite app_nil_r); now intros E.
  - cbn [forEach fst snd]. unfold bind.
    destruct (srv_connected srv) eqn:C.
    + rewrite (sendLog_Some level message m S C).
      match goal with
      | |- context [forEach msgs _ ?m1] =>
          destruct (IH m1 (logged level (format level message) srv) eq_refl)
            as (R & K & E & X)
      end.
      cbn [logged srv_connected] in X. rewrite C in X.
      destruct X as (L & X).
      repeat split; auto.
      rewrite L. cbn. now rewrite <- app_assoc.
    + rewrite (sendLog_unconnected level message m S C).
      match goal with
      | |- context [forEach msgs _ ?m1] =>
          destruct (IH m1 srv S) as (R & K & E & X)
      end.
      rewrite C in X. destruct X as (L & X).
      repeat split; auto. intros _.
      destruct msgs as [|lm msgs]; [reflexivity|].
      apply X. discriminate.
Qed.

Lemma sendLog_appends_in_order_witness :
  BaseMCP.server (self Demo.serving) <> None /\
  sentLogs
    (snd (forEach [(info, "starting"%string); (error, "failed"%string)]
            (fun lm => @sendLog Demo.collaborators (fst lm) (snd lm))
            Demo.serving))
  = [(info, "[info] starting"%string); (error, "[error] failed"%string)].
Proof.
  split; [discriminate|].
  destruct (@sendLog_appends_in_order Demo.collaborators
              [(info, "starting"%string); (error, "failed"%string)]
              Demo.serving _ eq_refl) as (_ & _ & _ & L & _).
  unfold sentLogs. rewrite L. reflexivity.
Defined.

(** Right after the constructor has returned the server exists but is not
    connected: a [sendLog] there sends nothing and ends the process. *)
Example sendLog_before_handshake_ends_process :
  (fun r => (fst r, exitCode (snd r), sentLogs (snd r)))
    ((@EasyMCP.constructor Demo.collaborators Demo.sdk Demo.full "1.0.0" None ;;
      @sendLog Demo.collaborators info "ready")
       EasyMCP.boot)
  = (Ok tt, Some 1%Z, []).
Proof. vm_compute. reflexivity. Qed.

Lemma served_set_server `{Collaborators} (s : option Server) (b : BaseMCP.t) :
  served (BaseMCP.set_server s b) = served b.
Proof. reflexivity. Qed.

(** X10: [serve] builds a new server every time it runs: serving, logging a
    message and serving again leaves the same server as serving once, with
    each handler bound once and no log record carried over. *)
Theorem serve_again_rebuilds_server `{Collaborators} :
  forall (sdk : Sdk) (m : Machine) (level : LoggingLevel) (message : string),
    NeverThrows sdk ->
    let twice := (serve sdk ;; sendLog level message ;; serve sdk) m in
    fst twice = Ok tt /\
    BaseMCP.server (self (snd twice)) = Some (served (self m)) /\
    BaseMCP.server (self (snd twice))
    = BaseMCP.server (self (snd (serve sdk m))).
Proof.
  intros sdk m level message N twice. subst twice.
  unfold bind. rewrite (serve_success m N).
  rewrite (@sendLog_Some _ level message (serving (entered m))
             (served (self m)) eq_refl eq_refl).
  rewrite (serve_success _ N). cbn [fst snd serving self entered emit].
  repeat split; reflexivity.
Qed.

Lemma serve_again_rebuilds_server_witness :
  NeverThrows Demo.sdk /\
  sentLogs (snd ((@serve Demo.collaborators Demo.sdk ;;
                  @sendLog Demo.collaborators info "hello" ;;
                  @serve Demo.collaborators Demo.sdk) withBrokenResource))
  = [] /\
  BaseMCP.server
    (self (snd ((@serve Demo.collaborators Demo.sdk ;;
                 @sendLog Demo.collaborators info "hello" ;;
                 @serve Demo.collaborators Demo.sdk) withBrokenResource)))
  = Some (@served Demo.collaborators (self withBrokenResource)).
Proof.
  split; [exact Demo_sdk_never_throws|]. split; [reflexivity|].
  exact (proj1 (proj2 (@serve_again_rebuilds_server Demo.collaborators Demo.sdk
                         withBrokenResource info "hello"
                         Demo_sdk_never_throws))).
Defined.

(** ** Further properties of the registration methods *)

Lemma receive_None_iff_server `{Collaborators} (r : Request) (m m' : Machine) :
  BaseMCP.server (self m') = BaseMCP.server (self m) ->
  (receive r m' = None <-> receive r m = None).
Proof.
  intros E. unfold receive. rewrite E.
  destruct (BaseMCP.server (self m)) as [srv|]; [|tauto].
  destruct (srv_connected srv && hasHandler (schemaOf r) srv);
    split; congruence.
Qed.

(** X11: the registration methods [tool], [resource], [template], [prompt]
    and [root] never touch the server or the process: after any sequence
    of registrations, whether one of them throws or not, [this.server] is
    what it was, so the advertised capabilities, the bound handlers and the
    kinds of request that are received stay as [serve] left them. *)
Theorem registrations_never_touch_server `{Collaborators} :
  forall (regs : list Registration) (m : Machine),
    let m' := snd (forEach regs register m) in
    BaseMCP.server (self m') = BaseMCP.server (self m) /\
    BaseMCP.name (self m') = BaseMCP.name (self m) /\
    BaseMCP.opts (self m') = BaseMCP.opts (self m) /\
    stderr m' = stderr m /\
    exitCode m' = exitCode m /\
    forall r, receive r m' = None <-> receive r m = None.
Proof.
  intros regs m m'. subst m'.
  pose proof (@Preserves_forEach _ _ shell register regs register_shell m) as P.
  unfold shell in P. injection P as E1 E2 E3 E4 E5.
  repeat split; auto; now apply receive_None_iff_server.
Qed.

(** ** Further properties of the Tool decorator *)

(** X12: the decorator changes nothing of a method but its tool
    configuration: what calling the method does, and the prompt, root,
    resource and template configurations other decorators attached, are
    kept, and the attached tool calls the original method. Decorating a
    method a second time replaces the tool configuration of the first. *)
Theorem Tool_only_sets_toolConfig `{MagicConfig} :
  forall (config config' : FunctionConfig) (target target' : Prototype)
         (propertyKey propertyKey' : string) (originalMethod : Method),
    let decorated := Tool config target propertyKey originalMethod in
    method_call decorated = method_call originalMethod /\
    promptConfig (configsOf decorated)
    = promptConfig (configsOf originalMethod) /\
    rootConfig (configsOf decorated) = rootConfig (configsOf originalMethod) /\
    resourceConfig (configsOf decorated)
    = resourceConfig (configsOf originalMethod) /\
    resourceTemplateConfig (configsOf decorated)
    = resourceTemplateConfig (configsOf originalMethod) /\
    option_map tool_fn (toolConfig (configsOf decorated))
    = Some (method_call originalMethod) /\
    option_map tool_description (toolConfig (configsOf decorated))
    = Some (match fc_description config with Some d => d | None => ""%string end) /\
    Tool config' target' propertyKey' decorated
    = Tool config' target' propertyKey' originalMethod.
Proof.
  intros config config' target target' propertyKey propertyKey' originalMethod
    decorated. subst decorated.
  unfold Tool, configsOf.
  destruct originalMethod as [call member [md|]]; repeat split.
Qed.

(** ** Further properties of the constructor *)

(** X13: the methods the constructor looks at are exactly the own property
    names of the prototype whose value on the instance is a function and
    that are not own property names of [Object.prototype], in prototype
    order; so "constructor" is never one of them, nor is a name that one of
    the instance's own fields shadows. *)
Theorem childMethods_characterised :
  forall (cls : ClassDef),
    (forall method,
        In method (childMethods cls) <->
        In method (map fst (class_prototype cls)) /\
        (exists f, lookupThis cls method = PFunction f) /\
        ~ In method objectPrototypeNames) /\
    ~ In "constructor"%string (childMethods cls) /\
    (forall field, In field instanceFields -> ~ In field (childMethods cls)) /\
    exists keep,
      childMethods cls = filter keep (map fst (class_prototype cls)).
Proof.
  intros cls.
  assert (C : forall method,
             In method (childMethods cls) <->
             In method (map fst (class_prototype cls)) /\
             (exists f, lookupThis cls method = PFunction f) /\
             ~ In method objectPrototypeNames).
  { intros method. unfold childMethods. rewrite !filter_In, negb_true_iff.
    rewrite <- not_true_iff_false, includes_In. split.
    - intros ((I & F) & N). repeat split; auto.
      destruct (lookupThis cls method) as [f|]; [now exists f|discriminate].
    - intros (I & (f & F) & N). repeat split; auto. now rewrite F. }
  split; [exact C|]. split; [|split].
  - intros I. apply C in I. destruct I as (_ & _ & N). apply N. now left.
  - intros field F I. apply C in I. destruct I as (_ & (f & L) & _).
    unfold lookupThis in L. apply includes_In in F. now rewrite F in L.
  - exists (fun method => isFunction (lookupThis cls method)
                          && negb (includes objectPrototypeNames method)).
    unfold childMethods. apply filter_filter_andb.
Qed.

(** X14: a class with a method that no decorator has touched cannot be
    constructed: [new] throws, [serve] is never entered, no server is
    created, nothing is written to stderr and the process does not exit. *)
Theorem undecorated_method_aborts_construction `{Collaborators} :
  forall (sdk : Sdk) (cls : ClassDef) (version : string)
         (description : option string) (method : string) (f : Method),
    In method (childMethods cls) ->
    lookupThis cls method = PFunction f ->
    method_metadata f = None ->
    let run := EasyMCP.new sdk cls version description in
    (exists e, fst run = Throw e) /\
    BaseMCP.server (self (snd run)) = None /\
    stderr (snd run) = [] /\
    exitCode (snd run) = None /\
    ~ In EvServe (events (snd run)).
Proof.
  intros sdk cls version description method f I L F run. subst run.
  rewrite new_cases.
  destruct (@registrationPhase_throws _ cls version description method f I L F
              EasyMCP.boot)
    as (e & T).
  pose proof (registrationPhase_shell cls version description EasyMCP.boot) as S.
  destruct (Registers_registrationPhase cls version description EasyMCP.boot)
    as (done & E & _).
  destruct (registrationPhase _ _ _ _) as [[[]|e'] m1]; [discriminate|].
  cbn [fst snd] in *. unfold shell in S. injection S as S1 S2 S3 S4 S5.
  split; [now exists e'|]. repeat split; auto.
  rewrite E. simpl. rewrite in_map_iff. intros (r & R & _). discriminate.
Qed.

Lemma undecorated_method_witness :
  In "helper"%string (childMethods Fixtures.undecorated) /\
  fst (@EasyMCP.new Demo.collaborators Demo.sdk Fixtures.undecorated "1.0.0"
         None)
  = Throw (mkError TypeErrorC
             "Cannot read properties of undefined (reading 'toolConfig')") /\
  BaseMCP.server
    (self (snd (@EasyMCP.new Demo.collaborators Demo.sdk Fixtures.undecorated
                  "1.0.0" None))) = None.
Proof.
  assert (I : In "helper"%string (childMethods Fixtures.undecorated)).
  { right. left. reflexivity. }
  split; [exact I|]. split; [reflexivity|].
  exact (proj1 (proj2 (@undecorated_method_aborts_construction
                         Demo.collaborators Demo.sdk Fixtures.undecorated
                         "1.0.0" None "helper" Demo.plain I eq_refl eq_refl))).
Defined.





(** ** Listings are live, the advertisement is not *)

Lemma shell_server (m m' : Machine) :
  shell m' = shell m -> BaseMCP.server (self m') = BaseMCP.server (self m).
Proof. unfold shell. intros E. now injection E. Qed.

(** X17: a kind of request that was received right after a successful
    [serve] is still received after any later registrations, and the list
    handlers answer with the registries as they are at the time of the
    request, whereas the capability set of the server stays the one
    computed when [serve] ran. *)
Theorem late_registrations_are_listed `{Collaborators} :
  forall (sdk : Sdk) (m : Machine) (regs : list Registration) (r : Request),
    NeverThrows sdk ->
    receive r (snd (serve sdk m)) <> None ->
    let m2 := snd (forEach regs register (snd (serve sdk m))) in
    let now := listCapabilities (self m2) in
    receive r m2 = Some (handler r m2) /\
    option_map srv_capabilities (BaseMCP.server (self m2))
    = Some (capabilities (registerCapabilities (self m))) /\
    handler ListResourcesRequest m2
    = (Ok (ListResourcesResult (resources now)), m2) /\
    handler ListResourceTemplatesRequest m2
    = (Ok (ListResourceTemplatesResult (resourceTemplates now)), m2) /\
    handler ListToolsRequest m2 = (Ok (ListToolsResult (tools now)), m2) /\
    handler ListPromptsRequest m2 = (Ok (ListPromptsResult (prompts now)), m2) /\
    handler ListRootsRequest m2 = (Ok (ListRootsResult (roots now)), m2).
Proof.
  intros sdk m regs r N R m2 now. subst m2 now.
  pose proof (shell_server
                (@Preserves_forEach _ _ shell register regs register_shell
                   (snd (serve sdk m)))) as S.
  rewrite (server_after_serve m N) in S.
  rewrite (receive_served m r N) in R.
  split; [|split; [|repeat split]].
  - unfold receive. rewrite S. cbn [served srv_connected andb].
    destruct (hasHandler (schemaOf r) (served (self m))); [reflexivity|].
    now elim R.
  - now rewrite S.
Qed.

Lemma late_registrations_witness :
  NeverThrows Demo.sdk /\
  @receive Demo.collaborators ListRootsRequest
    (snd (@serve Demo.collaborators Demo.sdk
            (snd (root Demo.home EasyMCP.boot)))) <> None /\
  fst (@handler Demo.collaborators ListRootsRequest
         (snd (forEach [RegRoot Demo.home] (@register Demo.collaborators)
                 (snd (@serve Demo.collaborators Demo.sdk
                         (snd (root Demo.home EasyMCP.boot)))))))
  = Ok (ListRootsResult [Demo.home; Demo.home]).
Proof.
  assert (R : @receive Demo.collaborators ListRootsRequest
                (snd (@serve Demo.collaborators Demo.sdk
                        (snd (root Demo.home EasyMCP.boot)))) <> None).
  { vm_compute. discriminate. }
  split; [exact Demo_sdk_never_throws|]. split; [exact R|].
  destruct (@late_registrations_are_listed Demo.collaborators Demo.sdk
              (snd (root Demo.home EasyMCP.boot)) [RegRoot Demo.home]
              ListRootsRequest Demo_sdk_never_throws R)
    as (_ & _ & _ & _ & _ & _ & L).
  rewrite L. reflexivity.
Defined.
